(** * ArxivAPIWrapper: a shallow embedding of
      [Multi-Agent/arxiv_tools/get_arxiv_tools.py]

    The wrapper forwards a plaintext query to the arXiv search client and
    projects the results into a joined text ([run]), a list of summary
    documents ([get_summaries_as_docs]) or full-text documents obtained by
    downloading and reading each PDF ([lazy_load], [load]).

    Python values are modelled as follows: [str] is [string], [int] is [Z],
    [Optional[int]] is [option Z], a [dict] with string keys is a
    [gmap string value], exceptions are an inductive type carried by an
    error monad over an explicit world (file system, import state and the
    trace of external effects), and the generator returned by [lazy_load]
    is a state machine advanced by [next].  [list(generator)] calls [next]
    under a budget of calls; [load_returns] shows that a budget that is
    large enough always exists and that the result does not depend on
    it. *)

From Stdlib Require Import ZArith String Ascii List Lia.
From stdpp Require Import base option gmap strings list.

Import ListNotations.
Local Open Scope string_scope.
Local Open Scope Z_scope.

(** ** Python strings *)

Module Str.

(** The line feed character, written [\n] in the source. *)
Definition nl : string := String "010"%char EmptyString.

(** [s[:n]] for [0 <= n]: the first [n] characters of [s]. *)
Fixpoint take (n : nat) (s : string) : string :=
  match n, s with
  | O, _ => EmptyString
  | S _, EmptyString => EmptyString
  | S k, String c s' => String c (take k s')
  end.

(** [s[:stop]] with Python's conventions: a missing bound ([None]) keeps the
    whole string, a negative bound counts from the end and is clamped at
    the start of the string. *)
Definition slice_to (s : string) (stop : option Z) : string :=
  match stop with
  | None => s
  | Some n =>
      if 0 <=? n then take (Z.to_nat n) s
      else take (Z.to_nat (Z.of_nat (String.length s) + n)) s
  end.

(** [s.replace(c, "")] for a one-character [c]: every occurrence goes. *)
Fixpoint remove_char (c : ascii) (s : string) : string :=
  match s with
  | EmptyString => EmptyString
  | String a s' =>
      if Ascii.eqb a c then remove_char c s' else String a (remove_char c s')
  end.

(** [sep.join(parts)]. *)
Definition join (sep : string) (parts : list string) : string :=
  String.concat sep parts.

(** [s.startswith(p)]. *)
Definition startswith (p s : string) : bool := String.prefix p s.

(** [sub in s]: [sub] occurs somewhere in [s]. *)
Fixpoint contains (sub s : string) : bool :=
  String.prefix sub s ||
  match s with
  | EmptyString => false
  | String _ s' => contains sub s'
  end.

(** [s.split(sep)] for a non-empty [sep]: the pieces between the
    non-overlapping occurrences of [sep], scanned from the left.  [skip]
    counts the characters of a matched separator still to be passed over
    and [cur] holds the piece being read, last character first. *)
Fixpoint split_go (sep : string) (skip : nat) (cur : list ascii) (s : string)
  : list string :=
  match s with
  | EmptyString => [string_of_list_ascii (rev cur)]
  | String c s' =>
      match skip with
      | S k => split_go sep k cur s'
      | O =>
          if String.prefix sep s
          then string_of_list_ascii (rev cur)
                 :: split_go sep (Nat.pred (String.length sep)) [] s'
          else split_go sep O (c :: cur) s'
      end
  end.

Definition split (sep s : string) : list string := split_go sep O [] s.

(** Two decimal digits, then four: the zero-padded fields of an ISO date. *)
Definition digit (n : nat) : ascii :=
  ascii_of_nat (48 + Nat.modulo n 10).

Definition pad2 (n : nat) : string :=
  String (digit (Nat.div n 10)) (String (digit n) EmptyString).

Definition pad4 (n : nat) : string :=
  String (digit (Nat.div n 1000)) (String (digit (Nat.div n 100)) (pad2 n)).

End Str.

(** ** Dates and timestamps ([datetime.datetime], [datetime.date]) *)

Record date := Date { d_year : nat; d_month : nat; d_day : nat }.

Record datetime := DateTime {
  dt_year : nat; dt_month : nat; dt_day : nat;
  dt_hour : nat; dt_minute : nat; dt_second : nat
}.

(** [t.date()] *)
Definition date_of (t : datetime) : date :=
  Date (dt_year t) (dt_month t) (dt_day t).

(** [str(d)], also what an f-string prints for a date: [YYYY-MM-DD]. *)
Definition str_date (d : date) : string :=
  Str.pad4 (d_year d) +:+ "-" +:+ Str.pad2 (d_month d) +:+ "-" +:+ Str.pad2 (d_day d).

(** ** Exceptions and outcomes *)

Inductive exn :=
| ArxivError (msg : string)
| UnexpectedEmptyPageError (msg : string)
| HTTPError (msg : string)
| ImportError (msg : string)
| FileNotFoundError (msg : string)
| FileDataError (msg : string)
| OtherError (msg : string).

(** [str(ex)] *)
Definition str_exn (ex : exn) : string :=
  match ex with
  | ArxivError m | UnexpectedEmptyPageError m | HTTPError m
  | ImportError m | FileNotFoundError m | FileDataError m | OtherError m => m
  end.

Inductive outcome (A : Type) :=
| Return (a : A)
| Raise (ex : exn).
Arguments Return {A} a.
Arguments Raise {A} ex.

(** ** Data model *)

(** [arxiv.Result.Author] and [arxiv.Result.Link]. *)
Record Author := { name : string }.
Record Link := { href : string }.

(** What a file on disk holds: a PDF, seen as the text of its pages in
    order, or bytes that the PDF reader rejects. *)
Inductive file_content :=
| Pdf (pages : list string)
| NotPdf.

(** [arxiv.Result]: one paper as the search client describes it.
    [download_pdf] is the method of that name: it raises, or writes the
    file it names and returns the path. *)
Record Result := {
  entry_id : string;
  updated : datetime;
  published : datetime;
  title : string;
  authors : list Author;
  summary : string;
  comment : option string;
  journal_ref : option string;
  doi : option string;
  primary_category : string;
  categories : list string;
  links : list Link;
  download_pdf : outcome (string * file_content)
}.

(** The values stored in a Document's metadata. *)
Inductive value :=
| VStr (s : string)
| VDate (d : date)
| VNone
| VList (l : list string).

Definition value_of_optional (o : option string) : value :=
  match o with
  | Some s => VStr s
  | None => VNone
  end.

(** [langchain_core.documents.Document]; [metadata] defaults to an empty
    dict when the constructor is not given one. *)
Record Document := {
  page_content : string;
  metadata : gmap string value
}.

Definition Document_of_content (content : string) : Document :=
  {| page_content := content; metadata := ∅ |}.

(** A dict display [{k1: v1, ..., kn: vn}]: entries are stored from left
    to right, so a later entry replaces an earlier one with the same
    key. *)
Definition dict (items : list (string * value)) : gmap string value :=
  foldl (fun m kv => <[kv.1 := kv.2]> m) ∅ items.

(** [{k1: v1, ..., **extra}]: the unpacked entries come last. *)
Definition dict_unpack (items : list (string * value)) (extra : gmap string value)
  : gmap string value :=
  extra ∪ dict items.

(** The lazy sequence that [client.results(search)] returns: it hands out
    results one at a time and ends normally or by raising. *)
Inductive results_iter :=
| IterStop
| IterRaise (ex : exn)
| IterItem (result : Result) (rest : results_iter).

Fixpoint iter_of_list (rs : list Result) : results_iter :=
  match rs with
  | [] => IterStop
  | r :: rs' => IterItem r (iter_of_list rs')
  end.

(** [[f(result) for result in results]]: the comprehension runs the
    sequence to its end, and an exception raised on the way discards the
    list built so far. *)
Fixpoint comprehension {A} (f : Result -> A) (results : results_iter)
  : outcome (list A) :=
  match results with
  | IterStop => Return []
  | IterRaise ex => Raise ex
  | IterItem result rest =>
      match comprehension f rest with
      | Return l => Return (f result :: l)
      | Raise ex => Raise ex
      end
  end.

(** The wrapper object: its configuration attributes and its search
    client.  [client query max_results] stands for
    [client.results(arxiv.Search(query, max_results=max_results))]. *)
Record ArxivAPIWrapper := {
  top_k_results : Z;
  ARXIV_MAX_QUERY_LENGTH : Z;
  continue_on_failure : bool;
  load_max_docs : Z;
  load_all_available_meta : bool;
  doc_content_chars_max : option Z;
  client : string -> Z -> outcome results_iter
}.

(** [except ImportError] *)
Definition is_ImportError (ex : exn) : bool :=
  match ex with
  | ImportError _ => true
  | _ => false
  end.

(** [except self.arxiv_exceptions]: the three caught classes. *)
Definition arxiv_exceptions (ex : exn) : bool :=
  match ex with
  | ArxivError _ | UnexpectedEmptyPageError _ | HTTPError _ => true
  | _ => false
  end.

(** ** The world: effects outside the interpreter *)

Inductive event :=
| EvSearch (query : string) (max_results : Z)
| EvDownload (path : string)
| EvOpen (path : string)
| EvRemove (path : string).

Record World := {
  fitz_installed : bool;
  files : gmap string file_content;
  trace : list event
}.

Definition log (ev : event) (w : World) : World :=
  {| fitz_installed := fitz_installed w;
     files := files w;
     trace := (trace w ++ [ev])%list |}.

Definition set_files (fs : gmap string file_content) (w : World) : World :=
  {| fitz_installed := fitz_installed w;
     files := fs;
     trace := trace w |}.

(** Computations that read and change the world and may raise. *)
Definition M (A : Type) : Type := World -> outcome A * World.

Definition ret {A} (a : A) : M A := fun w => (Return a, w).
Definition raise {A} (ex : exn) : M A := fun w => (Raise ex, w).
Definition bind {A B} (m : M A) (k : A -> M B) : M B :=
  fun w =>
    match m w with
    | (Return a, w') => k a w'
    | (Raise ex, w') => (Raise ex, w')
    end.
Definition lift {A} (o : outcome A) : M A := fun w => (o, w).

(** [try: x = body] / [except classes as ex: return handler(ex)] followed by
    the rest of the function, which runs outside the [try] block: only an
    exception raised by [body] itself can reach the handler. *)
Definition try_or_return {A B} (body : M A) (classes : exn -> bool)
    (handler : exn -> M B) (rest : A -> M B) : M B :=
  fun w =>
    match body w with
    | (Return a, w') => rest a w'
    | (Raise ex, w') => if classes ex then handler ex w' else (Raise ex, w')
    end.

(** [try: body] / [except classes: handler(ex)] where the value of the
    statement is that of the branch taken. *)
Definition try_except {A} (body : M A) (classes : exn -> bool)
    (handler : exn -> M A) : M A :=
  fun w =>
    match body w with
    | (Raise ex, w') => if classes ex then handler ex w' else (Raise ex, w')
    | r => r
    end.

Notation "'do' x <- m ; k" := (bind m (fun x => k))
  (at level 10, x name, m at level 100, k at level 200, only parsing).
Notation "'exec' m ; k" := (bind m (fun _ => k))
  (at level 10, m at level 100, k at level 200, only parsing).

(** [import fitz] *)
Definition import_fitz : M unit :=
  fun w =>
    if fitz_installed w then (Return tt, w)
    else (Raise (ImportError "No module named 'fitz'"), w).

(** [result.download_pdf()] *)
Definition Result_download_pdf (result : Result) : M string :=
  fun w =>
    match download_pdf result with
    | Return (path, content) =>
        (Return path, log (EvDownload path) (set_files (<[path := content]> (files w)) w))
    | Raise ex => (Raise ex, w)
    end.

(** [with fitz.open(path) as doc_file: "".join(page.get_text() for page in doc_file)] *)
Definition fitz_read_text (path : string) : M string :=
  fun w =>
    match files w !! path with
    | Some (Pdf pages) => (Return (String.concat "" pages), log (EvOpen path) w)
    | Some NotPdf => (Raise (FileDataError path), log (EvOpen path) w)
    | None => (Raise (FileNotFoundError path), log (EvOpen path) w)
    end.

(** [os.remove(path)] *)
Definition os_remove (path : string) : M unit :=
  fun w =>
    match files w !! path with
    | Some _ => (Return tt, log (EvRemove path) (set_files (delete path (files w)) w))
    | None => (Raise (FileNotFoundError path), w)
    end.

(** ** The methods of [ArxivAPIWrapper] *)

Section Wrapper.

Variable self : ArxivAPIWrapper.

(** [_fetch_results]: the query is cut at [ARXIV_MAX_QUERY_LENGTH] and
    handed to the client together with [top_k_results]. *)
Definition _fetch_results (query : string) : M results_iter :=
  fun w =>
    let submitted := Str.slice_to query (Some (ARXIV_MAX_QUERY_LENGTH self)) in
    (client self submitted (top_k_results self),
     log (EvSearch submitted (top_k_results self)) w).

(** [", ".join(a.name for a in result.authors)] *)
Definition authors_line (result : Result) : string :=
  Str.join ", " (map name (authors result)).

(** The Document that [get_summaries_as_docs] builds for one result. *)
Definition summary_doc (result : Result) : Document :=
  {| page_content := summary result;
     metadata :=
       dict [ ("Entry ID", VStr (entry_id result));
              ("Published", VDate (date_of (updated result)));
              ("Title", VStr (title result));
              ("Authors", VStr (authors_line result)) ] |}.

Definition get_summaries_as_docs (query : string) : M (list Document) :=
  try_or_return (_fetch_results query) arxiv_exceptions
    (fun ex => ret [Document_of_content ("Arxiv exception: " +:+ str_exn ex)])
    (fun results => lift (comprehension summary_doc results)).

(** The four-line block that [run] renders for one result. *)
Definition summary_block (result : Result) : string :=
  "Published: " +:+ str_date (date_of (updated result)) +:+ Str.nl +:+
  "Title: " +:+ title result +:+ Str.nl +:+
  "Authors: " +:+ authors_line result +:+ Str.nl +:+
  "Summary: " +:+ summary result.

Definition block_separator : string := Str.nl +:+ Str.nl.

Definition run (query : string) : M string :=
  try_or_return (_fetch_results query) arxiv_exceptions
    (fun ex => ret ("Arxiv exception: " +:+ str_exn ex))
    (fun results =>
       do docs <- lift (comprehension summary_block results);
       match docs with
       | _ :: _ =>
           ret (Str.slice_to (Str.join block_separator docs)
                  (doc_content_chars_max self))
       | [] => ret "No good Arxiv Result was found"
       end).

(** The metadata that [lazy_load] attaches to the Document of one result. *)
Definition extra_metadata (result : Result) : gmap string value :=
  if load_all_available_meta self then
    dict [ ("entry_id", VStr (entry_id result));
           ("published_first_time", VStr (str_date (date_of (published result))));
           ("comment", value_of_optional (comment result));
           ("journal_ref", value_of_optional (journal_ref result));
           ("doi", value_of_optional (doi result));
           ("primary_category", VStr (primary_category result));
           ("categories", VList (categories result));
           ("links", VList (map href (links result))) ]
  else dict [].

Definition load_metadata (result : Result) : gmap string value :=
  dict_unpack
    [ ("Published", VStr (str_date (date_of (updated result))));
      ("Title", VStr (title result));
      ("Authors", VStr (authors_line result));
      ("Summary", VStr (summary result)) ]
    (extra_metadata result).

(** The generator object that [lazy_load] returns.  Calling a generator
    function runs none of its body: the object starts in [GenCreated],
    is suspended at the [yield] between two results ([GenSuspended],
    which remembers the file still to be removed and the results not yet
    taken), and ends in [GenFinished]. *)
Inductive generator :=
| GenCreated (query : string)
| GenSuspended (doc_file_name : string) (results : results_iter)
| GenFinished.

Definition lazy_load (query : string) : M generator := ret (GenCreated query).

(** One turn of [for result in results]: from the loop header to the
    [yield], or out of the loop. *)
Definition loop_turn (results : results_iter) : M (option Document * generator) :=
  match results with
  | IterStop => ret (None, GenFinished)
  | IterRaise ex => raise ex
  | IterItem result rest =>
      do doc_file_name <- Result_download_pdf result;
      do text <- fitz_read_text doc_file_name;
      ret (Some {| page_content := Str.slice_to text (doc_content_chars_max self);
                   metadata := load_metadata result |},
           GenSuspended doc_file_name rest)
  end.

(** [next(g)]: run the body of [lazy_load] up to the next [yield].
    [Some doc] is the yielded Document, [None] is [StopIteration]. *)
Definition next (g : generator) : M (option Document * generator) :=
  match g with
  | GenCreated query =>
      exec try_except import_fitz is_ImportError
             (fun _ => raise (ImportError
                "PyMuPDF package not found, please install it with `pip install pymupdf`"));
      let query := Str.remove_char "-" (Str.remove_char ":" query) in
      do results <- _fetch_results query;
      loop_turn results
  | GenSuspended doc_file_name results =>
      exec os_remove doc_file_name;
      loop_turn results
  | GenFinished => ret (None, GenFinished)
  end.

(** [list(g)]: call [next] until the generator stops; an exception ends
    the loop and loses the Documents collected so far.  [fuel] bounds
    the number of calls. *)
Fixpoint list_of_generator (fuel : nat) (g : generator) (w : World)
  : option (outcome (list Document) * World) :=
  match fuel with
  | O => None
  | S fuel' =>
      match next g w with
      | (Raise ex, w') => Some (Raise ex, w')
      | (Return (None, _), w') => Some (Return [], w')
      | (Return (Some doc, g'), w') =>
          match list_of_generator fuel' g' w' with
          | Some (Return docs, w'') => Some (Return (doc :: docs), w'')
          | r => r
          end
      end
  end.

(** [load]: [list(self.lazy_load(query))]. *)
Definition load (fuel : nat) (query : string) (w : World)
  : option (outcome (list Document) * World) :=
  match lazy_load query w with
  | (Return g, w') => list_of_generator fuel g w'
  | (Raise ex, w') => Some (Raise ex, w')
  end.

End Wrapper.

(** ** Vocabulary of the statements *)

Definition summary_keys : gset string :=
  {[ "Entry ID"; "Published"; "Title"; "Authors" ]}.

(** The four-line block of the claim, written out. *)
Definition four_lines (r : Result) : string :=
  Str.join Str.nl
    [ "Published: " +:+ str_date (date_of (updated r));
      "Title: " +:+ title r;
      "Authors: " +:+ Str.join ", " (map name (authors r));
      "Summary: " +:+ summary r ].

(** A string that does not begin with a line feed. *)
Definition no_leading_nl (s : string) : Prop :=
  match s with
  | EmptyString => True
  | String c _ => c <> "010"%char
  end.

Definition base_keys : gset string :=
  {[ "Published"; "Title"; "Authors"; "Summary" ]}.

Definition extended_keys : gset string :=
  {[ "entry_id"; "published_first_time"; "comment"; "journal_ref"; "doi";
     "primary_category"; "categories"; "links" ]}.

(** [d] is a Document that some call of [next] yields. *)
Definition yielded (self : ArxivAPIWrapper) (d : Document) : Prop :=
  exists (g g' : generator) (w w' : World),
    next self g w = (Return (Some d, g'), w').

Fixpoint iter_length (results : results_iter) : nat :=
  match results with
  | IterItem _ rest => S (iter_length rest)
  | _ => O
  end.

(** The file system a generator finds once it has been resumed: the file
    it was holding at the [yield] is gone. *)
Definition files_on_resume (g : generator) (fs : gmap string file_content)
  : gmap string file_content :=
  match g with
  | GenSuspended doc_file_name _ => delete doc_file_name fs
  | _ => fs
  end.

(** The events of a resumption, up to the loop header. *)
Definition events_on_resume (self : ArxivAPIWrapper) (g : generator) : list event :=
  match g with
  | GenCreated query =>
      [EvSearch (Str.slice_to (Str.remove_char "-" (Str.remove_char ":" query))
                   (Some (ARXIV_MAX_QUERY_LENGTH self)))
         (top_k_results self)]
  | GenSuspended doc_file_name _ => [EvRemove doc_file_name]
  | GenFinished => []
  end.

(** [p] is the file a suspended generator still has to remove. *)
Definition holds_file (g : generator) (p : string) : Prop :=
  match g with
  | GenSuspended doc_file_name _ => doc_file_name = p
  | _ => False
  end.

#[local] Instance event_eq_dec : EqDecision event.
Proof. solve_decision. Defined.

(** ** Vocabulary for whole runs of the generator *)

(** A lazy sequence that hands out [rs] and then goes on as [tail]. *)
Definition iter_prepend (rs : list Result) (tail : results_iter) : results_iter :=
  fold_right IterItem tail rs.

(** The download of [r] succeeds and gives a file the PDF reader accepts. *)
Definition readable_pdf (r : Result) : Prop :=
  exists (p : string) (pages : list string), download_pdf r = Return (p, Pdf pages).

(** The path that [r.download_pdf()] returns, when it returns. *)
Definition downloaded_path (r : Result) : string :=
  match download_pdf r with
  | Return (p, _) => p
  | Raise _ => EmptyString
  end.

(** The text of all pages of the PDF of [r], in page order. *)
Definition pdf_text (r : Result) : string :=
  match download_pdf r with
  | Return (_, Pdf pages) => String.concat "" pages
  | _ => EmptyString
  end.

(** The Document expected from full-text retrieval for [r]. *)
Definition full_text_doc (self : ArxivAPIWrapper) (r : Result) : Document :=
  {| page_content := Str.slice_to (pdf_text r) (doc_content_chars_max self);
     metadata := load_metadata self r |}.

(** The external effects of one full turn of the loop for [r], the
    removal after the [yield] included. *)
Definition turn_events (r : Result) : list event :=
  [ EvDownload (downloaded_path r); EvOpen (downloaded_path r);
    EvRemove (downloaded_path r) ].

(** [list(g)] for a generator that stands at the loop header with
    [results] left, whatever brought it there. *)
Definition drain_turn (self : ArxivAPIWrapper) (fuel : nat)
    (results : results_iter) (w0 : World)
  : option (outcome (list Document) * World) :=
  match loop_turn self results w0 with
  | (Raise ex, w') => Some (Raise ex, w')
  | (Return (None, _), w') => Some (Return [], w')
  | (Return (Some doc, g'), w') =>
      match list_of_generator self fuel g' w' with
      | Some (Return docs, w'') => Some (Return (doc :: docs), w'')
      | r => r
      end
  end.

(** Put [ds] in front of the Documents of a finished run. *)
Definition with_docs (ds : list Document)
    (r : option (outcome (list Document) * World))
  : option (outcome (list Document) * World) :=
  match r with
  | Some (Return docs, w) => Some (Return (ds ++ docs)%list, w)
  | other => other
  end.

(** The same wrapper with other values for the two attributes that no
    method reads. *)
Definition with_unused (self : ArxivAPIWrapper) (cof : bool) (lmd : Z)
  : ArxivAPIWrapper :=
  {| top_k_results := top_k_results self;
     ARXIV_MAX_QUERY_LENGTH := ARXIV_MAX_QUERY_LENGTH self;
     continue_on_failure := cof;
     load_max_docs := lmd;
     load_all_available_meta := load_all_available_meta self;
     doc_content_chars_max := doc_content_chars_max self;
     client := client self |}.

(** ** Sample data used by the concrete checks *)

Module Sample.

Definition stamp : datetime := DateTime 2024 4 30 17 58 29.

Definition paper (id ttl abstract path : string) (pages : list string) : Result :=
  {| entry_id := id;
     updated := stamp;
     published := DateTime 2024 4 1 9 0 0;
     title := ttl;
     authors := [ {| name := "Ziming Liu" |}; {| name := "Max Tegmark" |} ];
     summary := abstract;
     comment := None;
     journal_ref := None;
     doi := Some "10.0000/kan";
     primary_category := "cs.LG";
     categories := ["cs.LG"; "stat.ML"];
     links := [ {| href := "http://arxiv.org/pdf/2404.19756" |} ];
     download_pdf := Return (path, Pdf pages) |}.

Definition kan : Result :=
  paper "http://arxiv.org/abs/2404.19756" "KAN" "Kolmogorov-Arnold Networks"
        "./2404.19756.KAN.pdf" ["page one; "; "page two"].

Definition kan2 : Result :=
  paper "http://arxiv.org/abs/2408.10205" "KAN 2.0" "Kolmogorov-Arnold Networks meet science"
        "./2408.10205.KAN_2.0.pdf" ["only page"].

(** A paper whose abstract has two paragraphs. *)
Definition two_paragraphs : Result :=
  paper "http://arxiv.org/abs/0000.00001" "T" ("a" +:+ Str.nl +:+ Str.nl +:+ "b")
        "./0000.00001.T.pdf" ["p"].

(** The attribute values of the class body, around a given client. *)
Definition wrapper (c : string -> Z -> outcome results_iter)
    (limit : option Z) (all_meta : bool) : ArxivAPIWrapper :=
  {| top_k_results := 3;
     ARXIV_MAX_QUERY_LENGTH := 300;
     continue_on_failure := false;
     load_max_docs := 500;
     load_all_available_meta := all_meta;
     doc_content_chars_max := limit;
     client := c |}.

(** The same, with queries cut after four characters. *)
Definition short_queries (c : string -> Z -> outcome results_iter) : ArxivAPIWrapper :=
  {| top_k_results := 3;
     ARXIV_MAX_QUERY_LENGTH := 4;
     continue_on_failure := false;
     load_max_docs := 500;
     load_all_available_meta := true;
     doc_content_chars_max := Some 40000;
     client := c |}.

(** The class defaults, with a negative query length. *)
Definition negative_length (c : string -> Z -> outcome results_iter) : ArxivAPIWrapper :=
  {| top_k_results := 3;
     ARXIV_MAX_QUERY_LENGTH := -4;
     continue_on_failure := false;
     load_max_docs := 500;
     load_all_available_meta := true;
     doc_content_chars_max := Some 40000;
     client := c |}.

Definition finds (rs : list Result) : string -> Z -> outcome results_iter :=
  fun _ _ => Return (iter_of_list rs).

Definition fails (ex : exn) : string -> Z -> outcome results_iter :=
  fun _ _ => Raise ex.

Definition world (fitz : bool) : World :=
  {| fitz_installed := fitz; files := ∅; trace := [] |}.

(** A paper whose download is not a PDF the reader accepts. *)
Definition broken : Result :=
  {| entry_id := "http://arxiv.org/abs/0000.00002";
     updated := stamp;
     published := stamp;
     title := "B";
     authors := [];
     summary := "broken";
     comment := Some "withdrawn";
     journal_ref := None;
     doi := None;
     primary_category := "cs.LG";
     categories := ["cs.LG"];
     links := [];
     download_pdf := Return ("./0000.00002.B.pdf", NotPdf) |}.

(** A paper whose download fails. *)
Definition unreachable : Result :=
  {| entry_id := "http://arxiv.org/abs/0000.00003";
     updated := stamp;
     published := stamp;
     title := "U";
     authors := [ {| name := "N. N." |} ];
     summary := "unreachable";
     comment := None;
     journal_ref := None;
     doi := None;
     primary_category := "cs.LG";
     categories := ["cs.LG"];
     links := [];
     download_pdf := Raise (OtherError "connection reset") |}.

(** A client whose sequence hands out [rs] and then goes on as [tail]. *)
Definition finds_then (rs : list Result) (tail : results_iter)
  : string -> Z -> outcome results_iter :=
  fun _ _ => Return (iter_prepend rs tail).

End Sample.

(** * game_builder_crew: a shallow embedding of
      [reference/game_builder_crew/main.py]

    The script reads [config/gamedesign.yaml], takes the entry
    [example1_pacman] of it and hands it to the crew, which is defined
    outside this repository.  The YAML parser and the crew are parameters
    of the model; the world holds the text files, what has been printed
    and the calls made to the crew. *)

Module GameBuilder.

(** What a call into the crew raises: [is_exception] tells whether the
    class derives from [Exception], [text] is [str(e)]. *)
Record crew_failure := { is_exception : bool; text : string }.

Inductive error :=
| FileNotFoundError (path : string)
| YAMLError (msg : string)
| KeyError (key : string)
| TypeError
| CrewError (failure : crew_failure)
| PlainException (msg : string).

Section Script.

(** The type of the values found in the configuration. *)
Variable V : Type.

(** What [yaml.safe_load] returns: a mapping, or a document of another
    kind (nothing, a scalar, a sequence). *)
Inductive yaml_document :=
| YamlMapping (m : gmap string V)
| YamlOther.

Inductive crew_call :=
| Kickoff (inputs : gmap string V)
| Train (n_iterations : Z) (filename : string) (inputs : gmap string V).

(** [yaml.safe_load] on the text of a file. *)
Variable yaml_safe_load : string -> error + yaml_document.

(** [GameBuilderCrew().crew().kickoff(inputs=...)]; the result is kept as
    the text that [print] shows for it. *)
Variable crew_kickoff : gmap string V -> crew_failure + string.

(** [GameBuilderCrew().crew().train(n_iterations=..., filename=..., inputs=...)] *)
Variable crew_train : Z -> string -> gmap string V -> crew_failure + unit.

Record World := {
  text_files : gmap string string;
  stdout : list string;
  crew_calls : list crew_call
}.

Definition IO (A : Type) : Type := World -> (error + A) * World.

Definition ret {A} (a : A) : IO A := fun w => (inr a, w).
Definition raise {A} (e : error) : IO A := fun w => (inl e, w).
Definition bind {A B} (m : IO A) (k : A -> IO B) : IO B :=
  fun w =>
    match m w with
    | (inr a, w') => k a w'
    | (inl e, w') => (inl e, w')
    end.

Notation "'io' x <- m ; k" := (bind m (fun x => k))
  (at level 10, x name, m at level 100, k at level 200, only parsing).
Notation "'io_' m ; k" := (bind m (fun _ => k))
  (at level 10, m at level 100, k at level 200, only parsing).

(** [print(s)] *)
Definition print (s : string) : IO unit :=
  fun w =>
    (inr tt, {| text_files := text_files w;
                stdout := (stdout w ++ [s])%list;
                crew_calls := crew_calls w |}).

(** [with open(path, 'r', encoding='utf-8') as file: yaml.safe_load(file)] *)
Definition load_yaml (path : string) : IO yaml_document :=
  fun w =>
    match text_files w !! path with
    | None => (inl (FileNotFoundError path), w)
    | Some content => (yaml_safe_load content, w)
    end.

(** [document[key]] for a string key. *)
Definition subscript (document : yaml_document) (key : string) : IO V :=
  match document with
  | YamlMapping m =>
      match m !! key with
      | Some v => ret v
      | None => raise (KeyError key)
      end
  | YamlOther => raise TypeError
  end.

Definition record_call (c : crew_call) (w : World) : World :=
  {| text_files := text_files w;
     stdout := stdout w;
     crew_calls := (crew_calls w ++ [c])%list |}.

Definition run : IO unit :=
  io_ print "## Welcome to the Game Crew";
  io_ print "-------------------------------";
  io examples <- load_yaml "config/gamedesign.yaml";
  io example <- subscript examples "example1_pacman";
  let inputs : gmap string V := {[ "game" := example ]} in
  io game <- (fun w =>
                match crew_kickoff inputs with
                | inr result => (inr result, record_call (Kickoff inputs) w)
                | inl f => (inl (CrewError f), record_call (Kickoff inputs) w)
                end);
  io_ print (Str.nl +:+ Str.nl +:+ "########################");
  io_ print "## Here is the result";
  io_ print ("########################" +:+ Str.nl);
  io_ print "final code for the game:";
  print game.

Definition train : IO unit :=
  io examples <- load_yaml "config/gamedesign.yaml";
  io example <- subscript examples "example1_pacman";
  let inputs : gmap string V := {[ "game" := example ]} in
  fun w =>
    match crew_train 2 "model.pkl" inputs with
    | inr _ => (inr tt, record_call (Train 2 "model.pkl" inputs) w)
    | inl f =>
        if is_exception f
        then (inl (PlainException
                     ("An error occurred while training the crew: " +:+ text f)),
              record_call (Train 2 "model.pkl" inputs) w)
        else (inl (CrewError f), record_call (Train 2 "model.pkl" inputs) w)
    end.

End Script.

Arguments YamlMapping {V} m.
Arguments YamlOther {V}.
Arguments Kickoff {V} inputs.
Arguments Train {V} n_iterations filename inputs.
Arguments text_files {V} w.
Arguments stdout {V} w.
Arguments crew_calls {V} w.

(** The world once the two lines of the banner are out. *)
Definition after_banner {V} (w : World V) : World V :=
  {| text_files := text_files w;
     stdout := (stdout w
                ++ ["## Welcome to the Game Crew"; "-------------------------------"])%list;
     crew_calls := crew_calls w |}.

(** A configuration with the expected entry, and crews for the checks. *)
Definition sample_world (files : gmap string string) : World string :=
  {| text_files := files; stdout := []; crew_calls := [] |}.

Definition sample_yaml (content : string) : error + yaml_document string :=
  if String.eqb content "example1_pacman: pacman"
  then inr (YamlMapping {[ "example1_pacman" := "pacman" ]})
  else if String.eqb content "other: tetris"
  then inr (YamlMapping {[ "other" := "tetris" ]})
  else inr YamlOther.

Definition obliging_kickoff (inputs : gmap string string) : crew_failure + string :=
  inr "import pygame".

Definition failing_train (n : Z) (filename : string) (inputs : gmap string string)
  : crew_failure + unit :=
  inl {| is_exception := true; text := "rate limit" |}.

Definition obliging_train (n : Z) (filename : string) (inputs : gmap string string)
  : crew_failure + unit :=
  inr tt.

End GameBuilder.

(** * Properties *)

(** ** Slices *)

Lemma take_length (n : nat) (s : string) :
  String.length (Str.take n s) = Nat.min n (String.length s).
Proof.
  revert s; induction n as [|n IH]; intros [|c s]; simpl; auto.
Qed.

Lemma take_all (n : nat) (s : string) :
  (String.length s <= n)%nat -> Str.take n s = s.
Proof.
  revert s; induction n as [|n IH]; intros [|c s]; simpl; intros H;
    try reflexivity; try lia.
  f_equal. apply IH. lia.
Qed.

Lemma take_is_prefix (n : nat) (s : string) :
  exists rest, s = Str.take n s +:+ rest.
Proof.
  revert s; induction n as [|n IH]; intros s.
  - exists s. reflexivity.
  - destruct s as [|c s]; simpl.
    + exists EmptyString. reflexivity.
    + destruct (IH s) as [rest Hrest]. exists rest.
      change (String c s = String c (Str.take n s +:+ rest)). now f_equal.
Qed.

Lemma slice_to_nonneg (s : string) (n : Z) :
  0 <= n -> Str.slice_to s (Some n) = Str.take (Z.to_nat n) s.
Proof.
  intros Hn. unfold Str.slice_to.
  destruct (Z.leb_spec 0 n); [reflexivity | lia].
Qed.

(** A negative bound is not a length: it drops characters from the end,
    which is why the bounds below ask for [0 <= n]. *)
Example slice_to_negative :
  Str.slice_to "hello" (Some (-2)) = "hel"
  /\ Str.slice_to "hello" (Some (-7)) = "".
Proof. split; reflexivity. Qed.

Lemma slice_to_length_le (s : string) (n : Z) :
  0 <= n -> Z.of_nat (String.length (Str.slice_to s (Some n))) <= n.
Proof.
  intros Hn. rewrite slice_to_nonneg, take_length by assumption. lia.
Qed.

Lemma slice_to_short (s : string) (n : Z) :
  Z.of_nat (String.length s) <= n -> Str.slice_to s (Some n) = s.
Proof.
  intros Hn. rewrite slice_to_nonneg by lia. apply take_all. lia.
Qed.

Lemma slice_to_long (s : string) (n : Z) :
  0 <= n -> n < Z.of_nat (String.length s) ->
  Z.of_nat (String.length (Str.slice_to s (Some n))) = n
  /\ exists rest, s = Str.slice_to s (Some n) +:+ rest.
Proof.
  intros Hn Hlt. rewrite slice_to_nonneg by assumption. split.
  - rewrite take_length. lia.
  - apply take_is_prefix.
Qed.

(** ** The comprehension over a sequence that ends normally *)

Lemma comprehension_iter_of_list {A} (f : Result -> A) (rs : list Result) :
  comprehension f (iter_of_list rs) = Return (map f rs).
Proof.
  induction rs as [|r rs IH]; simpl; [reflexivity|]. now rewrite IH.
Qed.

(** ** Dict displays *)

Lemma dict_snoc (items : list (string * value)) (k : string) (v : value) :
  dict (items ++ [(k, v)]) = <[k := v]> (dict items).
Proof. unfold dict. now rewrite foldl_app. Qed.

Lemma dict_nil : dict [] = ∅.
Proof. reflexivity. Qed.

(** ** Query execution *)

(** [_fetch_results] records exactly one search, for the sliced query, and
    returns what the client answers to it. *)
Lemma fetch_results_spec (self : ArxivAPIWrapper) (query : string) (w : World) :
  _fetch_results self query w =
    (client self (Str.slice_to query (Some (ARXIV_MAX_QUERY_LENGTH self)))
       (top_k_results self),
     log (EvSearch (Str.slice_to query (Some (ARXIV_MAX_QUERY_LENGTH self)))
            (top_k_results self)) w).
Proof. reflexivity. Qed.

(** C8. The query that [_fetch_results] submits to the search client is
    the input cut to its first [ARXIV_MAX_QUERY_LENGTH] characters when the
    input is longer than that, and the input itself otherwise. *)
Theorem fetch_results_submits_truncated_query
    (self : ArxivAPIWrapper) (query : string) (w : World) :
  0 <= ARXIV_MAX_QUERY_LENGTH self ->
  exists submitted : string,
    trace (snd (_fetch_results self query w))
      = (trace w ++ [EvSearch submitted (top_k_results self)])%list
    /\ fst (_fetch_results self query w) = client self submitted (top_k_results self)
    /\ (ARXIV_MAX_QUERY_LENGTH self < Z.of_nat (String.length query) ->
        Z.of_nat (String.length submitted) = ARXIV_MAX_QUERY_LENGTH self
        /\ exists rest, query = submitted +:+ rest)
    /\ (Z.of_nat (String.length query) <= ARXIV_MAX_QUERY_LENGTH self ->
        submitted = query).
Proof.
  intros Hmax.
  exists (Str.slice_to query (Some (ARXIV_MAX_QUERY_LENGTH self))).
  rewrite fetch_results_spec. simpl. repeat split.
  - now apply slice_to_long.
  - now apply slice_to_long.
  - apply slice_to_short.
Qed.

Lemma fetch_results_submits_truncated_query_witness :
  exists submitted : string,
    trace (snd (_fetch_results (Sample.short_queries (Sample.finds []))
                  "tree of thought llm" (Sample.world true)))
      = [EvSearch submitted 3]
    /\ Z.of_nat (String.length submitted) = 4
    /\ exists rest, "tree of thought llm" = submitted +:+ rest.
Proof.
  destruct (fetch_results_submits_truncated_query
              (Sample.short_queries (Sample.finds []))
              "tree of thought llm" (Sample.world true))
    as (submitted & Htrace & _ & Hlong & _).
  - simpl. lia.
  - exists submitted. split; [exact Htrace|]. apply Hlong. simpl. lia.
Defined.

(** ** Summary projection *)

Lemma summary_doc_metadata_dom (r : Result) :
  dom (metadata (summary_doc r)) = summary_keys.
Proof.
  unfold summary_doc, summary_keys, dict; simpl.
  rewrite !dom_insert_L, dom_empty_L. set_solver.
Qed.

Lemma summary_doc_metadata_lookup (r : Result) :
  metadata (summary_doc r) !! "Entry ID" = Some (VStr (entry_id r))
  /\ metadata (summary_doc r) !! "Published" = Some (VDate (date_of (updated r)))
  /\ metadata (summary_doc r) !! "Title" = Some (VStr (title r))
  /\ metadata (summary_doc r) !! "Authors"
       = Some (VStr (Str.join ", " (map name (authors r)))).
Proof.
  unfold summary_doc, dict; simpl. repeat split; now simplify_map_eq.
Qed.

(** When the search returns a sequence that ends normally,
    [get_summaries_as_docs] maps [summary_doc] over it. *)
Lemma get_summaries_as_docs_success
    (self : ArxivAPIWrapper) (query : string) (w : World) (rs : list Result) :
  client self (Str.slice_to query (Some (ARXIV_MAX_QUERY_LENGTH self)))
    (top_k_results self) = Return (iter_of_list rs) ->
  fst (get_summaries_as_docs self query w) = Return (map summary_doc rs).
Proof.
  intros Hc. unfold get_summaries_as_docs, try_or_return.
  rewrite fetch_results_spec, Hc. unfold lift; simpl.
  apply comprehension_iter_of_list.
Qed.

(** When the search call itself raises one of [arxiv_exceptions],
    [get_summaries_as_docs] returns the one-Document sentinel. *)
Lemma get_summaries_as_docs_search_error
    (self : ArxivAPIWrapper) (query : string) (w : World) (ex : exn) :
  client self (Str.slice_to query (Some (ARXIV_MAX_QUERY_LENGTH self)))
    (top_k_results self) = Raise ex ->
  arxiv_exceptions ex = true ->
  fst (get_summaries_as_docs self query w)
    = Return [Document_of_content ("Arxiv exception: " +:+ str_exn ex)].
Proof.
  intros Hc Hex. unfold get_summaries_as_docs, try_or_return.
  rewrite fetch_results_spec, Hc, Hex. reflexivity.
Qed.

(** C2. On a successful search [get_summaries_as_docs] returns one
    Document per result, in the client's order; the content is the
    result's summary as it is, whatever [doc_content_chars_max] says, and
    the metadata has exactly the keys Entry ID, Published, Title and
    Authors, holding the entry id, the date of [updated], the title and
    the author names joined by a comma and a space. *)
Theorem get_summaries_as_docs_one_document_per_result
    (self : ArxivAPIWrapper) (query : string) (w : World) (rs : list Result) :
  client self (Str.slice_to query (Some (ARXIV_MAX_QUERY_LENGTH self)))
    (top_k_results self) = Return (iter_of_list rs) ->
  rs <> [] ->
  exists docs : list Document,
    fst (get_summaries_as_docs self query w) = Return docs
    /\ length docs = length rs
    /\ forall (i : nat) (r : Result), rs !! i = Some r ->
         exists d : Document,
           docs !! i = Some d
           /\ page_content d = summary r
           /\ dom (metadata d) = {[ "Entry ID"; "Published"; "Title"; "Authors" ]}
           /\ metadata d !! "Entry ID" = Some (VStr (entry_id r))
           /\ metadata d !! "Published" = Some (VDate (date_of (updated r)))
           /\ metadata d !! "Title" = Some (VStr (title r))
           /\ metadata d !! "Authors"
                = Some (VStr (Str.join ", " (map name (authors r)))).
Proof.
  intros Hc _. exists (map summary_doc rs). split; [|split].
  - now apply get_summaries_as_docs_success.
  - apply length_map.
  - intros i r Hi. exists (summary_doc r). split.
    + rewrite list_lookup_fmap, Hi. reflexivity.
    + split; [reflexivity|]. split; [apply summary_doc_metadata_dom|].
      apply summary_doc_metadata_lookup.
Qed.

Lemma get_summaries_as_docs_one_document_per_result_witness :
  exists docs : list Document,
    fst (get_summaries_as_docs
           (Sample.wrapper (Sample.finds [Sample.kan; Sample.kan2]) (Some 5) true)
           "KAN" (Sample.world true)) = Return docs
    /\ length docs = 2%nat
    /\ map page_content docs
         = ["Kolmogorov-Arnold Networks"; "Kolmogorov-Arnold Networks meet science"].
Proof.
  destruct (get_summaries_as_docs_one_document_per_result
              (Sample.wrapper (Sample.finds [Sample.kan; Sample.kan2]) (Some 5) true)
              "KAN" (Sample.world true) [Sample.kan; Sample.kan2])
    as (docs & Hdocs & Hlen & Hith).
  - reflexivity.
  - discriminate.
  - exists docs. split; [exact Hdocs|]. split; [exact Hlen|].
    destruct (Hith 0%nat Sample.kan eq_refl) as (d0 & H0 & Hc0 & _).
    destruct (Hith 1%nat Sample.kan2 eq_refl) as (d1 & H1 & Hc1 & _).
    destruct docs as [|a [|b [|c docs]]]; simpl in Hlen; try discriminate.
    simpl in H0, H1. injection H0 as ->. injection H1 as ->.
    simpl. now rewrite Hc0, Hc1.
Defined.

(** ** Joined-text projection *)

Lemma append_cons (c : ascii) (s t : string) :
  String c s +:+ t = String c (s +:+ t).
Proof. reflexivity. Qed.

Lemma append_nil_l (t : string) : EmptyString +:+ t = t.
Proof. reflexivity. Qed.

Lemma append_assoc (s t u : string) : (s +:+ t) +:+ u = s +:+ (t +:+ u).
Proof.
  induction s as [|c s IH]; [reflexivity|].
  rewrite !append_cons. now rewrite IH.
Qed.

(** The block of one result is its four labelled lines. *)
Lemma summary_block_lines (r : Result) :
  summary_block r =
    Str.join Str.nl
      [ "Published: " +:+ str_date (date_of (updated r));
        "Title: " +:+ title r;
        "Authors: " +:+ Str.join ", " (map name (authors r));
        "Summary: " +:+ summary r ].
Proof.
  unfold summary_block, authors_line, Str.join. simpl String.concat.
  change (String.append) with String.app.
  now rewrite !append_assoc.
Qed.

Lemma summary_block_head (r : Result) :
  exists t, summary_block r = String "P" t.
Proof. eexists. reflexivity. Qed.

Lemma prefix_cons (a b : ascii) (s1 s2 : string) :
  String.prefix (String a s1) (String b s2) = Ascii.eqb a b && String.prefix s1 s2.
Proof.
  change (String.prefix (String a s1) (String b s2))
    with (if ascii_dec a b then String.prefix s1 s2 else false).
  destruct (ascii_dec a b) as [->|Hne].
  - now rewrite Ascii.eqb_refl.
  - apply Ascii.eqb_neq in Hne. now rewrite Hne.
Qed.

(** Where the separator of [run] matches: at two line feeds in a row. *)
Lemma prefix_block_separator (c : ascii) (s : string) :
  String.prefix block_separator (String c s)
  = Ascii.eqb c "010" &&
    match s with
    | String c2 _ => Ascii.eqb c2 "010"
    | EmptyString => false
    end.
Proof.
  change block_separator with (String "010" (String "010" EmptyString)).
  rewrite prefix_cons, (Ascii.eqb_sym "010" c).
  destruct s as [|c2 s]; [reflexivity|].
  rewrite prefix_cons, (Ascii.eqb_sym "010" c2).
  f_equal. destruct s; apply andb_true_r.
Qed.

Lemma split_go_length_cur (sep : string) (k : nat) (cur cur' : list ascii) (s : string) :
  length (Str.split_go sep k cur s) = length (Str.split_go sep k cur' s).
Proof.
  revert k cur cur'. induction s as [|c s IH]; intros k cur cur';
    cbn [Str.split_go].
  - reflexivity.
  - destruct k as [|k]; [|apply IH].
    destruct (String.prefix sep (String c s)); [reflexivity | apply IH].
Qed.

Lemma split_go_skip (sep : string) (k : nat) (cur : list ascii) (c : ascii) (s : string) :
  Str.split_go sep (S k) cur (String c s) = Str.split_go sep k cur s.
Proof. reflexivity. Qed.

Lemma contains_cons (sub : string) (c : ascii) (s : string) :
  Str.contains sub (String c s)
  = String.prefix sub (String c s) || Str.contains sub s.
Proof. reflexivity. Qed.

(** A piece without the separator is not split. *)
Lemma split_go_free (cur : list ascii) (b : string) :
  Str.contains block_separator b = false ->
  length (Str.split_go block_separator 0 cur b) = 1%nat.
Proof.
  revert cur. induction b as [|c b IH]; intros cur Hfree; [reflexivity|].
  rewrite contains_cons in Hfree. apply orb_false_iff in Hfree as [Hp Hfree].
  cbn [Str.split_go]. rewrite Hp. now apply IH.
Qed.

(** A piece without the separator, then the separator, then a string that
    does not begin with a line feed: exactly one cut is made before the
    rest is scanned. *)
Lemma split_go_piece (cur : list ascii) (b rest : string) :
  Str.contains block_separator b = false ->
  no_leading_nl rest ->
  length (Str.split_go block_separator 0 cur (b +:+ block_separator +:+ rest))
  = S (length (Str.split_go block_separator 0 [] rest)).
Proof.
  intros Hfree Hrest. revert cur Hfree.
  assert (Hrest' : forall cur',
    Str.split_go block_separator 0 cur' (String "010" rest)
    = Str.split_go block_separator 0 ("010"%char :: cur') rest).
  { intros cur'. cbn [Str.split_go]. rewrite prefix_block_separator.
    destruct rest as [|c2 rest]; [reflexivity|].
    simpl in Hrest. apply Ascii.eqb_neq in Hrest. now rewrite Hrest. }
  induction b as [|c b IH]; intros cur Hfree.
  - change (EmptyString +:+ block_separator +:+ rest)
      with (String "010" (String "010" rest)).
    cbn [Str.split_go]. rewrite prefix_block_separator. reflexivity.
  - rewrite contains_cons in Hfree. apply orb_false_iff in Hfree as [Hp Hfree].
    rewrite append_cons. cbn [Str.split_go].
    destruct (String.prefix block_separator
                (String c (b +:+ block_separator +:+ rest))) eqn:Hq;
      [|now apply IH].
    rewrite prefix_block_separator in Hq, Hp.
    destruct b as [|c2 b].
    + change (EmptyString +:+ block_separator +:+ rest)
        with (String "010" (String "010" rest)).
      change (Nat.pred (String.length block_separator)) with 1%nat.
      rewrite split_go_skip, Hrest'. cbn [length]. f_equal.
      apply split_go_length_cur.
    + rewrite append_cons in Hq. cbn beta iota in Hq, Hp. congruence.
Qed.

Lemma join_cons2 (sep b b2 : string) (bs : list string) :
  Str.join sep (b :: b2 :: bs) = b +:+ sep +:+ Str.join sep (b2 :: bs).
Proof. reflexivity. Qed.

(** Joining blocks that are free of the separator and do not begin with a
    line feed, then splitting again, gives as many pieces as blocks. *)
Lemma split_join_length (blocks : list string) :
  blocks <> [] ->
  Forall (fun b => Str.contains block_separator b = false) blocks ->
  Forall (fun b => exists c t, b = String c t /\ c <> "010"%char) blocks ->
  length (Str.split block_separator (Str.join block_separator blocks))
  = length blocks.
Proof.
  unfold Str.split. generalize (@nil ascii) as cur.
  induction blocks as [|b [|b2 bs] IH]; intros cur Hne Hfree Hhead.
  - congruence.
  - apply split_go_free. now inversion Hfree.
  - rewrite join_cons2.
    inversion Hfree as [|? ? Hb Hfree']; subst.
    inversion Hhead as [|? ? _ Hhead']; subst.
    rewrite split_go_piece; [| exact Hb |].
    + cbn [length]. f_equal. now apply IH.
    + inversion Hhead' as [|? ? (c & t & -> & Hc) _]; subst.
      destruct bs; [exact Hc|]. rewrite join_cons2, append_cons. exact Hc.
Qed.

(** When the search returns a sequence that ends normally and is not
    empty, [run] joins the blocks and slices the text. *)
Lemma run_success
    (self : ArxivAPIWrapper) (query : string) (w : World) (rs : list Result) :
  client self (Str.slice_to query (Some (ARXIV_MAX_QUERY_LENGTH self)))
    (top_k_results self) = Return (iter_of_list rs) ->
  rs <> [] ->
  fst (run self query w)
  = Return (Str.slice_to (Str.join block_separator (map summary_block rs))
              (doc_content_chars_max self)).
Proof.
  intros Hc Hne. unfold run, try_or_return.
  rewrite fetch_results_spec, Hc. unfold bind, lift.
  rewrite comprehension_iter_of_list.
  destruct rs as [|r rs]; [congruence | reflexivity].
Qed.

(** When the search call itself raises one of [arxiv_exceptions], [run]
    returns the sentinel string. *)
Lemma run_search_error
    (self : ArxivAPIWrapper) (query : string) (w : World) (ex : exn) :
  client self (Str.slice_to query (Some (ARXIV_MAX_QUERY_LENGTH self)))
    (top_k_results self) = Raise ex ->
  arxiv_exceptions ex = true ->
  fst (run self query w) = Return ("Arxiv exception: " +:+ str_exn ex).
Proof.
  intros Hc Hex. unfold run, try_or_return.
  rewrite fetch_results_spec, Hc, Hex. reflexivity.
Qed.

(** Both sentinels begin with the words that callers look for. *)
Lemma sentinel_startswith (ex : exn) :
  Str.startswith "Arxiv exception:" ("Arxiv exception: " +:+ str_exn ex) = true.
Proof.
  unfold Str.startswith.
  change ("Arxiv exception: " +:+ str_exn ex)
    with ("Arxiv exception:" +:+ (" " +:+ str_exn ex)).
  generalize (" " +:+ str_exn ex) as rest.
  generalize "Arxiv exception:" as p.
  induction p as [|c p IH]; intros rest.
  - now destruct rest.
  - rewrite append_cons, prefix_cons, Ascii.eqb_refl. apply IH.
Qed.

(** The [try] of [run] covers the search call only: an exception raised
    later, while the comprehension walks the lazy sequence, is not
    caught, whatever its class. *)
Lemma run_iteration_error_escapes
    (self : ArxivAPIWrapper) (query : string) (w : World)
    (rs : list Result) (ex : exn) :
  client self (Str.slice_to query (Some (ARXIV_MAX_QUERY_LENGTH self)))
    (top_k_results self)
    = Return (fold_right IterItem (IterRaise ex) rs) ->
  fst (run self query w) = Raise ex.
Proof.
  intros Hc. unfold run, try_or_return.
  rewrite fetch_results_spec, Hc. unfold bind, lift.
  assert (Hwalk : comprehension summary_block (fold_right IterItem (IterRaise ex) rs)
                  = Raise ex).
  { clear Hc. induction rs as [|r rs IH]; cbn [fold_right comprehension];
      [reflexivity | now rewrite IH]. }
  now rewrite Hwalk.
Qed.

(** C3, as amended. On a successful, non-empty search [run] returns the
    four-line blocks of the results, in order, joined by a blank line and
    sliced at [doc_content_chars_max]: the whole text when the limit is
    [None], and a prefix of at most [n] characters when the limit is a
    non-negative [n].  Splitting the text before the slice on the blank
    line gives one piece per result provided no block contains a blank
    line itself. *)
Theorem run_joins_four_line_blocks
    (self : ArxivAPIWrapper) (query : string) (w : World) (rs : list Result) :
  client self (Str.slice_to query (Some (ARXIV_MAX_QUERY_LENGTH self)))
    (top_k_results self) = Return (iter_of_list rs) ->
  rs <> [] ->
  let joined := Str.join (Str.nl +:+ Str.nl) (map four_lines rs) in
  fst (run self query w) = Return (Str.slice_to joined (doc_content_chars_max self))
  /\ (doc_content_chars_max self = None -> fst (run self query w) = Return joined)
  /\ (forall n : Z, doc_content_chars_max self = Some n -> 0 <= n ->
      exists out rest : string,
        fst (run self query w) = Return out
        /\ Z.of_nat (String.length out) <= n
        /\ joined = out +:+ rest)
  /\ (Forall (fun r => Str.contains (Str.nl +:+ Str.nl) (four_lines r) = false) rs ->
      length (Str.split (Str.nl +:+ Str.nl) joined) = length rs).
Proof.
  intros Hc Hne joined.
  assert (Hblocks : map four_lines rs = map summary_block rs).
  { apply map_ext. intros r. symmetry. apply summary_block_lines. }
  assert (Hrun : fst (run self query w)
                 = Return (Str.slice_to joined (doc_content_chars_max self))).
  { rewrite (run_success self query w rs Hc Hne). unfold joined.
    now rewrite Hblocks. }
  split; [exact Hrun|]. split; [|split].
  - intros Hnone. now rewrite Hrun, Hnone.
  - intros n Hsome Hn. rewrite Hsome in Hrun.
    destruct (take_is_prefix (Z.to_nat n) joined) as [rest Hrest].
    exists (Str.slice_to joined (Some n)), rest. split; [exact Hrun|]. split.
    + now apply slice_to_length_le.
    + now rewrite slice_to_nonneg.
  - intros Hfree. unfold joined.
    change (Str.nl +:+ Str.nl) with block_separator.
    rewrite split_join_length, length_map; try reflexivity.
    + destruct rs; [congruence | discriminate].
    + apply Forall_map. exact Hfree.
    + apply Forall_map, Forall_forall. intros r _.
      unfold four_lines. rewrite <- summary_block_lines.
      destruct (summary_block_head r) as [t Ht].
      exists "P"%char, t. split; [exact Ht | discriminate].
Qed.

Lemma run_joins_four_line_blocks_witness :
  fst (run (Sample.wrapper (Sample.finds [Sample.kan; Sample.kan2]) (Some 40) true)
         "KAN" (Sample.world true))
  = Return ("Published: 2024-04-30" +:+ Str.nl +:+ "Title: KAN" +:+ Str.nl +:+ "Authors")
  /\ length (Str.split (Str.nl +:+ Str.nl)
               (Str.join (Str.nl +:+ Str.nl)
                  (map four_lines [Sample.kan; Sample.kan2]))) = 2%nat.
Proof.
  destruct (run_joins_four_line_blocks
              (Sample.wrapper (Sample.finds [Sample.kan; Sample.kan2]) (Some 40) true)
              "KAN" (Sample.world true) [Sample.kan; Sample.kan2])
    as (Hrun & _ & _ & Hsplit).
  - reflexivity.
  - discriminate.
  - split.
    + rewrite Hrun. vm_compute. reflexivity.
    + apply Hsplit. repeat constructor.
Defined.

(** The last clause of C3 fails as stated: an abstract with a blank line
    in it makes the split of [run]'s untruncated text longer than the
    result list. *)
Lemma run_split_counterexample :
  exists text : string,
    fst (run (Sample.wrapper (Sample.finds [Sample.two_paragraphs]) None true)
           "T" (Sample.world true)) = Return text
    /\ length (Str.split (Str.nl +:+ Str.nl) text) = 2%nat
    /\ length (Str.split (Str.nl +:+ Str.nl) text) <> length [Sample.two_paragraphs].
Proof.
  eexists. split; [reflexivity|]. split; [vm_compute; reflexivity | vm_compute; lia].
Qed.

(** ** Full-text retrieval: one step of the generator *)

Lemma extra_metadata_dom (self : ArxivAPIWrapper) (r : Result) :
  dom (extra_metadata self r)
  = if load_all_available_meta self then extended_keys else ∅.
Proof.
  unfold extra_metadata, extended_keys, dict.
  destruct (load_all_available_meta self); simpl.
  - rewrite !dom_insert_L, dom_empty_L, (right_id_L ∅ (∪)), !(assoc_L (∪)).
    reflexivity.
  - apply dom_empty_L.
Qed.

Lemma load_metadata_dom (self : ArxivAPIWrapper) (r : Result) :
  dom (load_metadata self r)
  = base_keys ∪ (if load_all_available_meta self then extended_keys else ∅).
Proof.
  unfold load_metadata, dict_unpack. rewrite dom_union_L, extra_metadata_dom.
  unfold dict, base_keys; simpl. rewrite !dom_insert_L, dom_empty_L.
  apply set_eq. intros k.
  rewrite !elem_of_union, !elem_of_singleton, elem_of_empty. tauto.
Qed.

(** Everything that is known when [next] yields a Document. *)
Lemma next_yield_inv (self : ArxivAPIWrapper) (g g' : generator)
    (w w' : World) (d : Document) :
  next self g w = (Return (Some d, g'), w') ->
  exists (r : Result) (rest : results_iter) (p : string) (pages : list string),
    download_pdf r = Return (p, Pdf pages)
    /\ g' = GenSuspended p rest
    /\ d = {| page_content :=
                Str.slice_to (String.concat "" pages) (doc_content_chars_max self);
              metadata := load_metadata self r |}
    /\ fitz_installed w' = fitz_installed w
    /\ files w' = <[p := Pdf pages]> (files_on_resume g (files w))
    /\ trace w' = (trace w ++ events_on_resume self g ++ [EvDownload p; EvOpen p])%list
    /\ match g with
       | GenCreated query =>
           fitz_installed w = true
           /\ client self
                (Str.slice_to (Str.remove_char "-" (Str.remove_char ":" query))
                   (Some (ARXIV_MAX_QUERY_LENGTH self)))
                (top_k_results self) = Return (IterItem r rest)
       | GenSuspended doc_file_name results =>
           results = IterItem r rest /\ is_Some (files w !! doc_file_name)
       | GenFinished => False
       end.
Proof.
  assert (Hturn : forall results w0,
    loop_turn self results w0 = (Return (Some d, g'), w') ->
    exists r rest p pages,
      results = IterItem r rest
      /\ download_pdf r = Return (p, Pdf pages)
      /\ g' = GenSuspended p rest
      /\ d = {| page_content :=
                  Str.slice_to (String.concat "" pages) (doc_content_chars_max self);
                metadata := load_metadata self r |}
      /\ w' = log (EvOpen p) (log (EvDownload p)
                (set_files (<[p := Pdf pages]> (files w0)) w0))).
  { intros results w0. destruct results as [| ex | r rest]; simpl;
      [discriminate | discriminate |].
    unfold bind, Result_download_pdf, fitz_read_text, ret.
    destruct (download_pdf r) as [[p content] | ex] eqn:Hd; [|discriminate].
    simpl. rewrite lookup_insert_eq.
    destruct content as [pages|]; [|discriminate].
    intros [= <- <- <-]. exists r, rest, p, pages. repeat split; auto. }
  intros Hnext. destruct g as [query | p0 results |]; simpl in Hnext.
  - unfold bind, try_except, import_fitz in Hnext.
    destruct (fitz_installed w) eqn:Hfitz; [|discriminate].
    rewrite fetch_results_spec in Hnext.
    destruct (client self _ _) as [results | ex] eqn:Hc; [|discriminate].
    apply Hturn in Hnext as (r & rest & p & pages & -> & Hd & -> & -> & ->).
    exists r, rest, p, pages. simpl. rewrite <- !app_assoc.
    repeat split; auto.
  - unfold bind, os_remove in Hnext.
    destruct (files w !! p0) as [c|] eqn:Hf; [|discriminate].
    apply Hturn in Hnext as (r & rest & p & pages & -> & Hd & -> & -> & ->).
    exists r, rest, p, pages. simpl. rewrite <- !app_assoc.
    repeat split; eauto.
  - discriminate.
Qed.

(** ** Full-text retrieval: running the generator to its end *)

Lemma list_of_generator_yielded (self : ArxivAPIWrapper) (fuel : nat)
    (g : generator) (w w' : World) (docs : list Document) :
  list_of_generator self fuel g w = Some (Return docs, w') ->
  Forall (yielded self) docs.
Proof.
  revert g w w' docs. induction fuel as [|fuel IH]; intros g w w' docs; simpl.
  - discriminate.
  - destruct (next self g w) as [[[[d|] g1] | ex] w1] eqn:Hnext.
    + destruct (list_of_generator self fuel g1 w1) as [[[ds | ex] w2]|] eqn:Hrec;
        try discriminate.
      intros [= <- <-]. constructor.
      * now exists g, g1, w, w1.
      * eapply IH. exact Hrec.
    + intros [= <- <-]. constructor.
    + discriminate.
Qed.

Lemma load_yielded (self : ArxivAPIWrapper) (fuel : nat) (query : string)
    (w w' : World) (docs : list Document) :
  load self fuel query w = Some (Return docs, w') ->
  Forall (yielded self) docs.
Proof. unfold load, lazy_load, ret. apply list_of_generator_yielded. Qed.

(** More fuel does not change a result already reached. *)
Lemma list_of_generator_mono (self : ArxivAPIWrapper) (fuel fuel' : nat)
    (g : generator) (w : World) (r : outcome (list Document) * World) :
  list_of_generator self fuel g w = Some r ->
  (fuel <= fuel')%nat ->
  list_of_generator self fuel' g w = Some r.
Proof.
  revert fuel' g w r. induction fuel as [|fuel IH]; intros fuel' g w r; simpl.
  - discriminate.
  - intros Hrun Hle. destruct fuel' as [|fuel']; [lia|]. simpl.
    destruct (next self g w) as [[[[d|] g1] | ex] w1]; try exact Hrun.
    destruct (list_of_generator self fuel g1 w1) as [r1|] eqn:Hrec;
      [|discriminate].
    rewrite (IH fuel' g1 w1 r1 Hrec) by lia. exact Hrun.
Qed.

(** A suspended generator is exhausted by as many calls of [next] as it
    has results left, and one more. *)
Lemma list_of_generator_suspended_returns (self : ArxivAPIWrapper)
    (results : results_iter) (p : string) (w : World) (fuel : nat) :
  (iter_length results < fuel)%nat ->
  exists r, list_of_generator self fuel (GenSuspended p results) w = Some r.
Proof.
  revert p w fuel. induction results as [| ex | r0 rest IH]; intros p w fuel Hfuel;
    (destruct fuel as [|fuel]; [simpl in Hfuel; lia|]);
    cbn [list_of_generator];
    destruct (next self (GenSuspended p _) w) as [[[[d|] g1] | ex'] w1] eqn:Hnext;
    eauto.
  - apply next_yield_inv in Hnext as (? & ? & ? & ? & _ & _ & _ & _ & _ & _ & [=] & _).
  - apply next_yield_inv in Hnext as (? & ? & ? & ? & _ & _ & _ & _ & _ & _ & [=] & _).
  - apply next_yield_inv in Hnext
      as (r & rest' & p' & pages & _ & -> & _ & _ & _ & _ & [= <- <-] & _).
    destruct (IH p' w1 fuel) as [[[ds | ex] w2] Hrec]; [simpl in Hfuel; lia | |];
      rewrite Hrec; eauto.
Qed.

(** [load] returns: some number of calls of [next] is enough, and any
    larger budget gives the same result. *)
Lemma load_returns (self : ArxivAPIWrapper) (query : string) (w : World) :
  exists (n : nat) (r : outcome (list Document) * World),
    forall fuel, (n <= fuel)%nat -> load self fuel query w = Some r.
Proof.
  set (submitted := Str.slice_to (Str.remove_char "-" (Str.remove_char ":" query))
                      (Some (ARXIV_MAX_QUERY_LENGTH self))).
  set (n := match client self submitted (top_k_results self) with
            | Return results => S (iter_length results)
            | Raise _ => 1%nat
            end).
  assert (Hn : exists r, load self n query w = Some r).
  { unfold load, lazy_load, ret.
    assert (Hpos : exists k, n = S k).
    { unfold n. destruct (client self submitted (top_k_results self)); eauto. }
    destruct Hpos as [k Hk]. rewrite Hk. cbn [list_of_generator].
    destruct (next self (GenCreated query) w) as [[[[d|] g1] | ex'] w1] eqn:Hnext;
      eauto.
    apply next_yield_inv in Hnext
      as (r & rest & p & pages & _ & -> & _ & _ & _ & _ & _ & Hc).
    fold submitted in Hc. unfold n in Hk. rewrite Hc in Hk. simpl in Hk.
    injection Hk as <-.
    destruct (list_of_generator_suspended_returns self rest p w1 (S (iter_length rest)))
      as [[[ds | ex] w2] Hrec]; [lia | |]; rewrite Hrec; eauto. }
  destruct Hn as [r Hr]. exists n, r. intros fuel Hfuel.
  unfold load, lazy_load, ret in *. eapply list_of_generator_mono; eauto.
Qed.

(** ** Metadata of the full-text Documents *)

(** C4, as amended. Every Document that [lazy_load] yields, and so every
    Document in the list of [load], has the metadata keys Published,
    Title, Authors and Summary, together with the eight extended keys
    exactly when [load_all_available_meta] is set, and no other key; the
    key Entry ID of the summary projection is not among them. *)
Theorem lazy_load_metadata_keys (self : ArxivAPIWrapper) :
  (forall d : Document, yielded self d ->
     dom (metadata d)
       = {[ "Published"; "Title"; "Authors"; "Summary" ]}
         ∪ (if load_all_available_meta self
            then {[ "entry_id"; "published_first_time"; "comment"; "journal_ref";
                    "doi"; "primary_category"; "categories"; "links" ]}
            else ∅)
     /\ (forall k : string, k ∈ extended_keys ->
           (k ∈ dom (metadata d) <-> load_all_available_meta self = true))
     /\ "Entry ID" ∉ dom (metadata d))
  /\ (forall (fuel : nat) (query : string) (w w' : World) (docs : list Document),
        load self fuel query w = Some (Return docs, w') ->
        Forall (fun d => dom (metadata d)
                         = base_keys ∪ (if load_all_available_meta self
                                        then extended_keys else ∅)) docs).
Proof.
  assert (Hdom : forall d, yielded self d ->
            dom (metadata d)
            = base_keys ∪ (if load_all_available_meta self
                           then extended_keys else ∅)).
  { intros d (g & g' & w & w' & Hnext).
    apply next_yield_inv in Hnext as (r & rest & p & pages & _ & _ & -> & _).
    apply load_metadata_dom. }
  split.
  - intros d Hd. specialize (Hdom d Hd). split; [exact Hdom|]. rewrite Hdom.
    unfold base_keys, extended_keys.
    destruct (load_all_available_meta self); split.
    + intros k Hk. split; [reflexivity|]. intros _. apply elem_of_union_r, Hk.
    + rewrite !elem_of_union, !elem_of_singleton. intros H.
      repeat (destruct H as [H|H]); discriminate.
    + intros k Hk. rewrite !elem_of_union, !elem_of_singleton, elem_of_empty.
      rewrite !elem_of_union, !elem_of_singleton in Hk.
      split; [|discriminate]. intros H.
      repeat (destruct Hk as [Hk|Hk]); subst k;
        repeat (destruct H as [H|H]); try discriminate; contradiction.
    + rewrite !elem_of_union, !elem_of_singleton, elem_of_empty. intros H.
      repeat (destruct H as [H|H]); try discriminate; contradiction.
  - intros fuel query w w' docs Hload. apply load_yielded in Hload.
    eapply Forall_impl; [exact Hload | exact Hdom].
Qed.

Lemma lazy_load_metadata_keys_witness :
  exists (docs : list Document) (w' : World),
    load (Sample.wrapper (Sample.finds [Sample.kan]) (Some 4) false)
         2 "KAN" (Sample.world true) = Some (Return docs, w')
    /\ Forall (fun d => dom (metadata d) = base_keys ∪ ∅) docs.
Proof.
  assert (Hrun : exists docs w',
    load (Sample.wrapper (Sample.finds [Sample.kan]) (Some 4) false)
         2 "KAN" (Sample.world true) = Some (Return docs, w')).
  { eexists _, _. vm_compute. reflexivity. }
  destruct Hrun as (docs & w' & Hrun). exists docs, w'. split; [exact Hrun|].
  destruct (lazy_load_metadata_keys
              (Sample.wrapper (Sample.finds [Sample.kan]) (Some 4) false))
    as [_ Hload].
  exact (Hload _ _ _ _ _ Hrun).
Defined.

(** C4 fails as stated: with the flag off, a Document of [lazy_load] has
    the key Summary, which is none of Entry ID, Published, Title and
    Authors, and has no Entry ID. *)
Lemma lazy_load_metadata_counterexample :
  exists (d : Document) (g : generator) (w' : World),
    next (Sample.wrapper (Sample.finds [Sample.kan]) (Some 40000) false)
         (GenCreated "KAN") (Sample.world true)
      = (Return (Some d, g), w')
    /\ metadata d !! "Summary" = Some (VStr "Kolmogorov-Arnold Networks")
    /\ metadata d !! "Entry ID" = None
    /\ dom (metadata d) <> {[ "Entry ID"; "Published"; "Title"; "Authors" ]}.
Proof.
  eexists _, _, _. split; [vm_compute; reflexivity|].
  assert (Hnone : forall m : gmap string value,
            m !! "Entry ID" = None ->
            dom m <> {[ "Entry ID"; "Published"; "Title"; "Authors" ]}).
  { intros m Hm Heq.
    assert (Hin : "Entry ID" ∈ dom m).
    { rewrite Heq, !elem_of_union, !elem_of_singleton. auto. }
    apply elem_of_dom in Hin as [v Hv]. congruence. }
  split; [vm_compute; reflexivity|].
  split; [vm_compute; reflexivity|].
  apply Hnone. vm_compute. reflexivity.
Qed.

(** ** Length of the content *)

(** C6, as amended. The content of every Document that [lazy_load] yields,
    and of every Document in the list of [load], is at most
    [doc_content_chars_max] characters long when that limit is a
    non-negative number; the Documents of [get_summaries_as_docs] carry
    the summary whole and are not covered. *)
Theorem lazy_load_content_within_limit (self : ArxivAPIWrapper) (n : Z) :
  doc_content_chars_max self = Some n ->
  0 <= n ->
  (forall d : Document, yielded self d ->
     Z.of_nat (String.length (page_content d)) <= n)
  /\ (forall (fuel : nat) (query : string) (w w' : World) (docs : list Document),
        load self fuel query w = Some (Return docs, w') ->
        Forall (fun d => Z.of_nat (String.length (page_content d)) <= n) docs).
Proof.
  intros Hmax Hn.
  assert (Hlen : forall d, yielded self d ->
            Z.of_nat (String.length (page_content d)) <= n).
  { intros d (g & g' & w & w' & Hnext).
    apply next_yield_inv in Hnext as (r & rest & p & pages & _ & _ & -> & _).
    simpl. rewrite Hmax. now apply slice_to_length_le. }
  split; [exact Hlen|].
  intros fuel query w w' docs Hload. apply load_yielded in Hload.
  eapply Forall_impl; [exact Hload | exact Hlen].
Qed.

Lemma lazy_load_content_within_limit_witness :
  exists (docs : list Document) (w' : World),
    load (Sample.wrapper (Sample.finds [Sample.kan; Sample.kan2]) (Some 4) true)
         3 "KAN" (Sample.world true) = Some (Return docs, w')
    /\ map page_content docs = ["page"; "only"]
    /\ Forall (fun d => Z.of_nat (String.length (page_content d)) <= 4) docs.
Proof.
  assert (Hrun : exists docs w',
    load (Sample.wrapper (Sample.finds [Sample.kan; Sample.kan2]) (Some 4) true)
         3 "KAN" (Sample.world true) = Some (Return docs, w')
    /\ map page_content docs = ["page"; "only"]).
  { eexists _, _. split; vm_compute; reflexivity. }
  destruct Hrun as (docs & w' & Hrun & Hcontent).
  exists docs, w'. split; [exact Hrun|]. split; [exact Hcontent|].
  destruct (lazy_load_content_within_limit
              (Sample.wrapper (Sample.finds [Sample.kan; Sample.kan2]) (Some 4) true) 4)
    as [_ Hload]; [reflexivity | lia |].
  eapply Hload. exact Hrun.
Defined.

(** C6 fails as stated: [get_summaries_as_docs] returns a summary of 26
    characters under a limit of 5. *)
Lemma summary_content_exceeds_limit_counterexample :
  exists d : Document,
    fst (get_summaries_as_docs
           (Sample.wrapper (Sample.finds [Sample.kan]) (Some 5) true)
           "KAN" (Sample.world true)) = Return [d]
    /\ doc_content_chars_max
         (Sample.wrapper (Sample.finds [Sample.kan]) (Some 5) true) = Some 5
    /\ Z.of_nat (String.length (page_content d)) = 26
    /\ ~ Z.of_nat (String.length (page_content d)) <= 5.
Proof.
  eexists. split; [reflexivity|]. split; [reflexivity|].
  split; [reflexivity | vm_compute; congruence].
Qed.

(** ** The temporary file *)

(** Everything that is known when [next] reports the end of the sequence. *)
Lemma next_stop_inv (self : ArxivAPIWrapper) (g g' : generator) (w w' : World) :
  next self g w = (Return (None, g'), w') ->
  files w' = files_on_resume g (files w)
  /\ trace w' = (trace w ++ events_on_resume self g)%list.
Proof.
  assert (Hturn : forall results w0,
    loop_turn self results w0 = (Return (None, g'), w') -> w' = w0).
  { intros results w0. destruct results as [| ex | r rest]; simpl.
    - now intros [= _ <-].
    - discriminate.
    - unfold bind, Result_download_pdf, fitz_read_text, ret.
      destruct (download_pdf r) as [[p content] | ex]; [|discriminate].
      simpl. rewrite lookup_insert_eq. destruct content; discriminate. }
  intros Hnext. destruct g as [query | p0 results |]; simpl in Hnext.
  - unfold bind, try_except, import_fitz in Hnext.
    destruct (fitz_installed w); [|discriminate].
    rewrite fetch_results_spec in Hnext.
    destruct (client self _ _) as [results | ex]; [|discriminate].
    apply Hturn in Hnext as ->. split; reflexivity.
  - unfold bind, os_remove in Hnext.
    destruct (files w !! p0); [|discriminate].
    apply Hturn in Hnext as ->. split; reflexivity.
  - injection Hnext as _ <-. split; [reflexivity|]. simpl.
    now rewrite app_nil_r.
Qed.

Lemma files_on_resume_held (g : generator) (fs : gmap string file_content) (p : string) :
  holds_file g p -> files_on_resume g fs !! p = None.
Proof.
  destruct g; simpl; try contradiction. intros ->. apply lookup_delete_eq.
Qed.

Lemma files_on_resume_other (g : generator) (fs : gmap string file_content) (p : string) :
  ~ holds_file g p -> files_on_resume g fs !! p = fs !! p.
Proof.
  destruct g; simpl; try reflexivity. intros Hne. now apply lookup_delete_ne.
Qed.

Lemma events_on_resume_no_download (self : ArxivAPIWrapper) (g : generator) (p : string) :
  EvDownload p ∉ events_on_resume self g.
Proof.
  destruct g; simpl; rewrite ?elem_of_cons, ?elem_of_nil; intuition discriminate.
Qed.

(** Running a generator to its end removes the file it was holding and
    every file it downloads on the way, and touches no other file. *)
Lemma list_of_generator_files (self : ArxivAPIWrapper) (fuel : nat)
    (g : generator) (w w' : World) (docs : list Document) :
  list_of_generator self fuel g w = Some (Return docs, w') ->
  exists evs : list event,
    trace w' = (trace w ++ evs)%list
    /\ forall p : string,
         (EvDownload p ∈ evs \/ holds_file g p -> files w' !! p = None)
         /\ (EvDownload p ∉ evs -> ~ holds_file g p -> files w' !! p = files w !! p).
Proof.
  revert g w w' docs. induction fuel as [|fuel IH]; intros g w w' docs; simpl.
  - discriminate.
  - destruct (next self g w) as [[[[d|] g1] | ex] w1] eqn:Hnext.
    + destruct (list_of_generator self fuel g1 w1) as [[[ds | ex] w2]|] eqn:Hrec;
        try discriminate.
      intros [= <- <-].
      apply next_yield_inv in Hnext
        as (r & rest & p1 & pages & _ & -> & _ & _ & Hfiles & Htrace & _).
      apply IH in Hrec as (evs' & Htrace' & Hinv).
      exists (events_on_resume self g ++ [EvDownload p1; EvOpen p1] ++ evs')%list.
      split; [rewrite Htrace', Htrace, <- !app_assoc; reflexivity|].
      intros p. destruct (Hinv p) as [Hgone Hkept].
      pose proof (events_on_resume_no_download self g p) as Hres.
      rewrite !elem_of_app, !elem_of_cons, elem_of_nil.
      destruct (decide (p1 = p)) as [Heq | Hne];
        [split; [intros _; apply Hgone; right; exact Heq
                | intros Hnot; exfalso; apply Hnot; right; left; left;
                  now rewrite Heq] |].
      destruct (decide (EvDownload p ∈ evs')) as [Hin | Hnin];
        [split; [intros _; apply Hgone; left; exact Hin
                | intros Hnot; exfalso; apply Hnot; right; right; exact Hin] |].
      assert (Hstep : files w2 !! p = files_on_resume g (files w) !! p).
      { rewrite Hkept by (simpl; auto). rewrite Hfiles.
        now apply lookup_insert_ne. }
      rewrite Hstep. split.
      * intros [Hin | Hheld]; [|now apply files_on_resume_held].
        exfalso. destruct Hin as [Hin | [[Hin | [Hin | []]] | Hin]];
          [contradiction | congruence | discriminate | contradiction].
      * intros _ Hheld. now apply files_on_resume_other.
    + intros [= <- <-]. apply next_stop_inv in Hnext as [Hfiles Htrace].
      exists (events_on_resume self g). split; [exact Htrace|].
      intros p. rewrite Hfiles. split.
      * intros [Hin | Hheld];
          [now apply events_on_resume_no_download in Hin
          | now apply files_on_resume_held].
      * intros _ Hheld. now apply files_on_resume_other.
    + discriminate.
Qed.

(** One turn of the loop only adds events, and changes no file other than
    the one it downloads. *)
Lemma loop_turn_effects (self : ArxivAPIWrapper) (results : results_iter) (w0 : World) :
  exists evs : list event,
    trace (snd (loop_turn self results w0)) = (trace w0 ++ evs)%list
    /\ forall p : string, EvDownload p ∉ evs ->
         files (snd (loop_turn self results w0)) !! p = files w0 !! p.
Proof.
  destruct results as [| ex | r rest]; simpl;
    try (exists []; split; [now rewrite app_nil_r | reflexivity]).
  unfold bind, Result_download_pdf, fitz_read_text, ret.
  destruct (download_pdf r) as [[p' content] | ex];
    [| exists []; split; [now rewrite app_nil_r | reflexivity]].
  simpl. rewrite lookup_insert_eq.
  exists [EvDownload p'; EvOpen p'].
  assert (Hother : forall p, EvDownload p ∉ [EvDownload p'; EvOpen p'] ->
            <[p' := content]> (files w0) !! p = files w0 !! p).
  { intros p Hp. apply lookup_insert_ne. intros ->. apply Hp. left. }
  destruct content; simpl; (split; [now rewrite <- app_assoc | exact Hother]).
Qed.

(** C5, as amended. In full-text mode the temporary file of a result is
    still on disk when the Document of that result is yielded.  It is
    removed when the generator is resumed: the removal is the first effect
    of the resumption, ahead of the download of the next result.  When the
    generator is run to its end, as [load] does, none of the files it
    downloaded is left. *)
Theorem temporary_file_removed_on_resumption (self : ArxivAPIWrapper) :
  (forall (g g' : generator) (w w' : World) (d : Document),
     next self g w = (Return (Some d, g'), w') ->
     exists (p : string) (rest : results_iter),
       g' = GenSuspended p rest /\ is_Some (files w' !! p))
  /\ (forall (p : string) (rest : results_iter) (w : World),
        is_Some (files w !! p) ->
        exists evs : list event,
          trace (snd (next self (GenSuspended p rest) w))
            = (trace w ++ EvRemove p :: evs)%list
          /\ (EvDownload p ∉ evs ->
              files (snd (next self (GenSuspended p rest) w)) !! p = None))
  /\ (forall (fuel : nat) (query : string) (w w' : World) (docs : list Document),
        load self fuel query w = Some (Return docs, w') ->
        exists evs : list event,
          trace w' = (trace w ++ evs)%list
          /\ forall p : string, EvDownload p ∈ evs -> files w' !! p = None).
Proof.
  split; [|split].
  - intros g g' w w' d Hnext.
    apply next_yield_inv in Hnext
      as (r & rest & p & pages & _ & -> & _ & _ & Hfiles & _).
    exists p, rest. split; [reflexivity|]. rewrite Hfiles, lookup_insert_eq. eauto.
  - intros p rest w [c Hc]. simpl. unfold bind, os_remove. rewrite Hc.
    destruct (loop_turn_effects self rest
                (log (EvRemove p) (set_files (delete p (files w)) w)))
      as (evs & Htrace & Hfiles).
    exists evs. split.
    + rewrite Htrace. simpl. now rewrite <- app_assoc.
    + intros Hp. rewrite (Hfiles p Hp). simpl. apply lookup_delete_eq.
  - intros fuel query w w' docs Hload. unfold load, lazy_load, ret in Hload.
    apply list_of_generator_files in Hload as (evs & Htrace & Hinv).
    exists evs. split; [exact Htrace|]. intros p Hp. apply (Hinv p). now left.
Qed.

Lemma temporary_file_removed_on_resumption_witness :
  exists (docs : list Document) (w' : World),
    load (Sample.wrapper (Sample.finds [Sample.kan; Sample.kan2]) (Some 4) true)
         3 "KAN" (Sample.world true) = Some (Return docs, w')
    /\ exists evs : list event,
         trace w' = evs
         /\ forall p : string, EvDownload p ∈ evs -> files w' !! p = None.
Proof.
  assert (Hrun : exists docs w',
    load (Sample.wrapper (Sample.finds [Sample.kan; Sample.kan2]) (Some 4) true)
         3 "KAN" (Sample.world true) = Some (Return docs, w')).
  { eexists _, _. vm_compute. reflexivity. }
  destruct Hrun as (docs & w' & Hrun). exists docs, w'. split; [exact Hrun|].
  destruct (temporary_file_removed_on_resumption
              (Sample.wrapper (Sample.finds [Sample.kan; Sample.kan2]) (Some 4) true))
    as (_ & _ & Hload).
  exact (Hload _ _ _ _ _ Hrun).
Defined.

(** C5 fails as stated: when the first Document is yielded, the file it
    was read from is on disk, and no removal has happened yet. *)
Lemma temporary_file_present_at_yield_counterexample :
  exists (d : Document) (g : generator) (w' : World),
    next (Sample.wrapper (Sample.finds [Sample.kan; Sample.kan2]) (Some 40000) true)
         (GenCreated "KAN") (Sample.world true)
      = (Return (Some d, g), w')
    /\ files w' !! "./2404.19756.KAN.pdf" = Some (Pdf ["page one; "; "page two"])
    /\ trace w' = [EvSearch "KAN" 3; EvDownload "./2404.19756.KAN.pdf";
                   EvOpen "./2404.19756.KAN.pdf"].
Proof.
  eexists _, _, _. split; [vm_compute; reflexivity|].
  split; vm_compute; reflexivity.
Qed.

(** ** The missing PDF reader *)

(** C7, as amended. When PyMuPDF cannot be imported, calling [lazy_load]
    still returns a generator and does nothing else; the [ImportError] is
    raised by the first [next] on that generator, before any search is
    submitted and with the world left as it was.  [load], which runs the
    generator at once, raises the [ImportError] at call time.  In neither
    case is the error turned into a returned value. *)
Theorem missing_fitz_raises_import_error
    (self : ArxivAPIWrapper) (query : string) (w : World) :
  fitz_installed w = false ->
  lazy_load query w = (Return (GenCreated query), w)
  /\ (exists msg : string,
        next self (GenCreated query) w = (Raise (ImportError msg), w))
  /\ (forall fuel : nat, fuel <> O ->
        exists msg : string,
          load self fuel query w = Some (Raise (ImportError msg), w)).
Proof.
  intros Hfitz.
  assert (Hnext : next self (GenCreated query) w
                  = (Raise (ImportError
                       "PyMuPDF package not found, please install it with `pip install pymupdf`"),
                     w)).
  { simpl. unfold bind, try_except, import_fitz. now rewrite Hfitz. }
  split; [reflexivity|]. split; [eauto|].
  intros [|fuel] Hfuel; [congruence|].
  eexists. unfold load, lazy_load, ret.
  cbn [list_of_generator]. now rewrite Hnext.
Qed.

Lemma missing_fitz_raises_import_error_witness :
  exists msg : string,
    load (Sample.wrapper (Sample.finds [Sample.kan]) (Some 40000) true)
         2 "KAN" (Sample.world false)
    = Some (Raise (ImportError msg), Sample.world false)
    /\ trace (Sample.world false) = [].
Proof.
  destruct (missing_fitz_raises_import_error
              (Sample.wrapper (Sample.finds [Sample.kan]) (Some 40000) true)
              "KAN" (Sample.world false) eq_refl) as (_ & _ & Hload).
  destruct (Hload 2%nat) as [msg Hmsg]; [discriminate|].
  exists msg. split; [exact Hmsg | reflexivity].
Defined.

(** C7 fails as stated for [lazy_load]: without PyMuPDF the call does not
    raise, it returns the generator. *)
Lemma lazy_load_call_does_not_raise_counterexample :
  fitz_installed (Sample.world false) = false
  /\ fst (lazy_load "KAN" (Sample.world false)) = Return (GenCreated "KAN")
  /\ ~ exists msg : string,
         fst (lazy_load "KAN" (Sample.world false)) = Raise (ImportError msg).
Proof.
  split; [reflexivity|]. split; [reflexivity|]. intros [msg Hmsg]. discriminate.
Qed.

(** ** No results *)

(** C9. When the search ends normally without a result, [run] returns the
    text "No good Arxiv Result was found", [get_summaries_as_docs] and
    [load] return the empty list, and the generator of [lazy_load] stops
    at its first [next]; none of them raises. *)
Theorem zero_results_is_not_an_error
    (self : ArxivAPIWrapper) (query : string) (w : World) :
  client self (Str.slice_to query (Some (ARXIV_MAX_QUERY_LENGTH self)))
    (top_k_results self) = Return IterStop ->
  client self
    (Str.slice_to (Str.remove_char "-" (Str.remove_char ":" query))
       (Some (ARXIV_MAX_QUERY_LENGTH self)))
    (top_k_results self) = Return IterStop ->
  fitz_installed w = true ->
  fst (run self query w) = Return "No good Arxiv Result was found"
  /\ fst (get_summaries_as_docs self query w) = Return []
  /\ (exists g : generator,
        fst (lazy_load query w) = Return g
        /\ fst (next self g w) = Return (None, GenFinished))
  /\ (forall fuel : nat, fuel <> O ->
        exists w' : World, load self fuel query w = Some (Return [], w')).
Proof.
  intros Hrun Hload Hfitz.
  assert (Hnext : exists w', next self (GenCreated query) w
                             = (Return (None, GenFinished), w')).
  { simpl. unfold bind, try_except, import_fitz. rewrite Hfitz, fetch_results_spec, Hload.
    simpl. eauto. }
  destruct Hnext as [w' Hnext]. split; [|split; [|split]].
  - unfold run, try_or_return. now rewrite fetch_results_spec, Hrun.
  - unfold get_summaries_as_docs, try_or_return.
    now rewrite fetch_results_spec, Hrun.
  - exists (GenCreated query). split; [reflexivity|]. now rewrite Hnext.
  - intros [|fuel] Hfuel; [congruence|]. exists w'.
    unfold load, lazy_load, ret. cbn [list_of_generator]. now rewrite Hnext.
Qed.

Lemma zero_results_is_not_an_error_witness :
  fst (run (Sample.wrapper (Sample.finds []) (Some 40000) true)
         "no-such:paper" (Sample.world true))
    = Return "No good Arxiv Result was found"
  /\ fst (get_summaries_as_docs (Sample.wrapper (Sample.finds []) (Some 40000) true)
            "no-such:paper" (Sample.world true)) = Return []
  /\ exists w' : World,
       load (Sample.wrapper (Sample.finds []) (Some 40000) true)
            1 "no-such:paper" (Sample.world true) = Some (Return [], w').
Proof.
  destruct (zero_results_is_not_an_error
              (Sample.wrapper (Sample.finds []) (Some 40000) true)
              "no-such:paper" (Sample.world true) eq_refl eq_refl eq_refl)
    as (Hrun & Hdocs & _ & Hload).
  split; [exact Hrun|]. split; [exact Hdocs|]. apply Hload. discriminate.
Defined.

(** ** Search errors *)

(** C1, the failing path. [lazy_load] calls [_fetch_results] outside any
    [try]: when PyMuPDF is there and the search call raises, whatever the
    class of the exception, the first [next] raises it, and so does
    [load]. *)
Theorem lazy_load_propagates_search_error
    (self : ArxivAPIWrapper) (query : string) (w : World) (ex : exn) :
  fitz_installed w = true ->
  client self
    (Str.slice_to (Str.remove_char "-" (Str.remove_char ":" query))
       (Some (ARXIV_MAX_QUERY_LENGTH self)))
    (top_k_results self) = Raise ex ->
  fst (next self (GenCreated query) w) = Raise ex
  /\ forall fuel : nat, fuel <> O ->
       exists w' : World, load self fuel query w = Some (Raise ex, w').
Proof.
  intros Hfitz Hc.
  assert (Hnext : exists w', next self (GenCreated query) w = (Raise ex, w')).
  { simpl. unfold bind, try_except, import_fitz. rewrite Hfitz, fetch_results_spec, Hc.
    eauto. }
  destruct Hnext as [w' Hnext]. split; [now rewrite Hnext|].
  intros [|fuel] Hfuel; [congruence|]. exists w'.
  unfold load, lazy_load, ret. cbn [list_of_generator]. now rewrite Hnext.
Qed.

Lemma lazy_load_propagates_search_error_witness :
  arxiv_exceptions (HTTPError "Page request resulted in HTTP 503") = true
  /\ fst (next (Sample.wrapper (Sample.fails (HTTPError "Page request resulted in HTTP 503"))
                  (Some 40000) true)
            (GenCreated "KAN") (Sample.world true))
     = Raise (HTTPError "Page request resulted in HTTP 503")
  /\ exists w' : World,
       load (Sample.wrapper (Sample.fails (HTTPError "Page request resulted in HTTP 503"))
               (Some 40000) true)
            4 "KAN" (Sample.world true)
       = Some (Raise (HTTPError "Page request resulted in HTTP 503"), w').
Proof.
  destruct (lazy_load_propagates_search_error
              (Sample.wrapper (Sample.fails (HTTPError "Page request resulted in HTTP 503"))
                 (Some 40000) true)
              "KAN" (Sample.world true)
              (HTTPError "Page request resulted in HTTP 503") eq_refl eq_refl)
    as [Hnext Hload].
  split; [reflexivity|]. split; [exact Hnext|]. apply Hload. discriminate.
Defined.

(** C10. When the search call raises one of [arxiv_exceptions], the one
    Document that [get_summaries_as_docs] returns has an empty metadata
    dict: none of Entry ID, Published, Title and Authors is a key of it.
    The Documents of the success paths are not so: those of
    [get_summaries_as_docs] have all four keys, those of [lazy_load] have
    Published, Title and Authors. *)
Theorem sentinel_document_has_no_metadata
    (self : ArxivAPIWrapper) (query : string) (w : World) (ex : exn) :
  client self (Str.slice_to query (Some (ARXIV_MAX_QUERY_LENGTH self)))
    (top_k_results self) = Raise ex ->
  arxiv_exceptions ex = true ->
  (exists d : Document,
     fst (get_summaries_as_docs self query w) = Return [d]
     /\ page_content d = "Arxiv exception: " +:+ str_exn ex
     /\ metadata d = ∅
     /\ ("Entry ID" ∉ dom (metadata d))
     /\ ("Published" ∉ dom (metadata d))
     /\ ("Title" ∉ dom (metadata d))
     /\ ("Authors" ∉ dom (metadata d)))
  /\ (forall r : Result,
        {[ "Entry ID"; "Published"; "Title"; "Authors" ]}
          ⊆ dom (metadata (summary_doc r)))
  /\ (forall d : Document, yielded self d ->
        {[ "Published"; "Title"; "Authors" ]} ⊆ dom (metadata d)).
Proof.
  intros Hc Hex. split; [|split].
  - exists (Document_of_content ("Arxiv exception: " +:+ str_exn ex)).
    split; [now apply get_summaries_as_docs_search_error|].
    split; [reflexivity|]. split; [reflexivity|].
    simpl. rewrite dom_empty_L. repeat split; apply not_elem_of_empty.
  - intros r. now rewrite summary_doc_metadata_dom.
  - intros d (g & g' & w0 & w' & Hnext).
    apply next_yield_inv in Hnext as (r & rest & p & pages & _ & _ & -> & _).
    simpl. rewrite load_metadata_dom. unfold base_keys. intros k.
    rewrite !elem_of_union, !elem_of_singleton. tauto.
Qed.

Lemma sentinel_document_has_no_metadata_witness :
  exists d : Document,
    fst (get_summaries_as_docs
           (Sample.wrapper (Sample.fails (UnexpectedEmptyPageError "Page of results was unexpectedly empty"))
              (Some 40000) true)
           "KAN" (Sample.world true)) = Return [d]
    /\ page_content d = "Arxiv exception: Page of results was unexpectedly empty"
    /\ metadata d = ∅.
Proof.
  destruct (sentinel_document_has_no_metadata
              (Sample.wrapper (Sample.fails (UnexpectedEmptyPageError "Page of results was unexpectedly empty"))
                 (Some 40000) true)
              "KAN" (Sample.world true)
              (UnexpectedEmptyPageError "Page of results was unexpectedly empty")
              eq_refl eq_refl)
    as ((d & Hdocs & Hcontent & Hmeta & _) & _).
  exists d. split; [exact Hdocs|]. split; [exact Hcontent | exact Hmeta].
Defined.

(** * Further properties of the wrapper *)

(** ** Whole runs of the generator *)

Lemma with_docs_nil (r : option (outcome (list Document) * World)) :
  with_docs [] r = r.
Proof. destruct r as [[[docs | ex] w]|]; reflexivity. Qed.

Lemma iter_prepend_nil (rs : list Result) :
  iter_prepend rs IterStop = iter_of_list rs.
Proof. induction rs as [|r rs IH]; simpl; [reflexivity | now rewrite <- IH]. Qed.

(** The first [next] of a fresh generator, once the import and the search
    have succeeded, stands at the loop header. *)
Lemma list_of_generator_created (self : ArxivAPIWrapper) (fuel : nat)
    (query : string) (results : results_iter) (w : World) :
  fitz_installed w = true ->
  client self
    (Str.slice_to (Str.remove_char "-" (Str.remove_char ":" query))
       (Some (ARXIV_MAX_QUERY_LENGTH self)))
    (top_k_results self) = Return results ->
  list_of_generator self (S fuel) (GenCreated query) w
  = drain_turn self fuel results
      (log (EvSearch
              (Str.slice_to (Str.remove_char "-" (Str.remove_char ":" query))
                 (Some (ARXIV_MAX_QUERY_LENGTH self)))
              (top_k_results self)) w).
Proof.
  intros Hfitz Hc. cbn [list_of_generator next].
  unfold bind at 1 2. unfold try_except, import_fitz. rewrite Hfitz.
  rewrite fetch_results_spec, Hc. reflexivity.
Qed.

(** A resumed generator removes the file it holds and stands at the loop
    header. *)
Lemma list_of_generator_suspended (self : ArxivAPIWrapper) (fuel : nat)
    (p : string) (results : results_iter) (w : World) :
  is_Some (files w !! p) ->
  list_of_generator self (S fuel) (GenSuspended p results) w
  = drain_turn self fuel results
      (log (EvRemove p) (set_files (delete p (files w)) w)).
Proof.
  intros [c Hc]. cbn [list_of_generator next].
  unfold bind at 1. unfold os_remove. rewrite Hc. reflexivity.
Qed.

(** One turn for a result whose PDF can be read. *)
Lemma loop_turn_readable (self : ArxivAPIWrapper) (r : Result)
    (rest : results_iter) (w0 : World) (p : string) (pages : list string) :
  download_pdf r = Return (p, Pdf pages) ->
  loop_turn self (IterItem r rest) w0
  = (Return (Some (full_text_doc self r), GenSuspended p rest),
     log (EvOpen p) (log (EvDownload p)
       (set_files (<[p := Pdf pages]> (files w0)) w0))).
Proof.
  intros Hd. unfold full_text_doc, pdf_text. simpl.
  unfold bind, Result_download_pdf, fitz_read_text, ret. rewrite Hd. simpl.
  rewrite lookup_insert_eq. reflexivity.
Qed.

(** A run over readable results: their Documents come out in order, each
    turn downloads, opens and removes its own file, and at the end every
    downloaded path is free while no other file has changed. *)
Lemma drain_turn_good (self : ArxivAPIWrapper) (good : list Result) :
  Forall readable_pdf good ->
  forall (tail : results_iter) (fuel : nat) (w0 : World),
  exists w1 : World,
    drain_turn self (length good + fuel) (iter_prepend good tail) w0
    = with_docs (map (full_text_doc self) good) (drain_turn self fuel tail w1)
    /\ trace w1 = (trace w0 ++ flat_map turn_events good)%list
    /\ fitz_installed w1 = fitz_installed w0
    /\ forall x : string,
         files w1 !! x
         = if decide (x ∈ map downloaded_path good) then None else files w0 !! x.
Proof.
  induction 1 as [|r good (p & pages & Hd) Hgood IH]; intros tail fuel w0.
  - exists w0. simpl. rewrite with_docs_nil, app_nil_r. repeat split.
  - set (wA := log (EvOpen p) (log (EvDownload p)
                 (set_files (<[p := Pdf pages]> (files w0)) w0))).
    set (wB := log (EvRemove p) (set_files (delete p (files wA)) wA)).
    destruct (IH tail fuel wB) as (w1 & Hrun & Htrace & Hfitz & Hfiles).
    exists w1. split; [|split; [|split]].
    + cbn [length iter_prepend fold_right Nat.add].
      unfold drain_turn at 1.
      rewrite (loop_turn_readable self r _ w0 p pages Hd). fold wA.
      rewrite list_of_generator_suspended
        by (subst wA; simpl; rewrite lookup_insert_eq; eauto).
      fold wB. fold (iter_prepend good tail). rewrite Hrun.
      destruct (drain_turn self fuel tail w1) as [[[docs | ex] w2]|]; reflexivity.
    + rewrite Htrace. subst wB wA. cbn [flat_map]. unfold turn_events at 2.
      unfold downloaded_path. rewrite Hd. simpl. rewrite <- !app_assoc.
      reflexivity.
    + rewrite Hfitz. reflexivity.
    + intros x. rewrite Hfiles. cbn [map].
      assert (Hp : downloaded_path r = p) by (unfold downloaded_path; now rewrite Hd).
      rewrite Hp. subst wB wA. simpl.
      destruct (decide (x ∈ map downloaded_path good)) as [Hin | Hnin].
      * rewrite decide_True by (now right). reflexivity.
      * destruct (decide (x = p)) as [-> | Hne].
        -- rewrite decide_True by left. apply lookup_delete_eq.
        -- rewrite decide_False
             by (rewrite elem_of_cons; intros [?|?]; contradiction).
           rewrite lookup_delete_ne, lookup_insert_ne by congruence.
           reflexivity.
Qed.

(** [load] over a sequence that begins with readable results: the run
    reaches the rest of the sequence with their Documents collected. *)
Lemma load_prefix_run (self : ArxivAPIWrapper) (query : string) (w : World)
    (good : list Result) (tail : results_iter) (fuel : nat) :
  fitz_installed w = true ->
  client self
    (Str.slice_to (Str.remove_char "-" (Str.remove_char ":" query))
       (Some (ARXIV_MAX_QUERY_LENGTH self)))
    (top_k_results self) = Return (iter_prepend good tail) ->
  Forall readable_pdf good ->
  exists w1 : World,
    load self (S (length good + fuel)) query w
    = with_docs (map (full_text_doc self) good) (drain_turn self fuel tail w1)
    /\ trace w1
       = (trace w
          ++ EvSearch
               (Str.slice_to (Str.remove_char "-" (Str.remove_char ":" query))
                  (Some (ARXIV_MAX_QUERY_LENGTH self)))
               (top_k_results self)
          :: flat_map turn_events good)%list
    /\ forall x : string,
         files w1 !! x
         = if decide (x ∈ map downloaded_path good) then None else files w !! x.
Proof.
  intros Hfitz Hc Hgood.
  destruct (drain_turn_good self good Hgood tail fuel
              (log (EvSearch
                      (Str.slice_to (Str.remove_char "-" (Str.remove_char ":" query))
                         (Some (ARXIV_MAX_QUERY_LENGTH self)))
                      (top_k_results self)) w))
    as (w1 & Hrun & Htrace & _ & Hfiles).
  exists w1. split; [|split].
  - unfold load, lazy_load, ret.
    rewrite (list_of_generator_created self _ query _ w Hfitz Hc). exact Hrun.
  - rewrite Htrace. simpl. now rewrite <- app_assoc.
  - exact Hfiles.
Qed.

Lemma load_more_fuel (self : ArxivAPIWrapper) (fuel fuel' : nat)
    (query : string) (w : World) (r : outcome (list Document) * World) :
  load self fuel query w = Some r ->
  (fuel <= fuel')%nat ->
  load self fuel' query w = Some r.
Proof. unfold load, lazy_load, ret. apply list_of_generator_mono. Qed.

(** X1. Full-text retrieval, success path. When PyMuPDF is there, the
    search ends normally with the results [rs] and every download gives a
    readable PDF, [load] returns one Document per result, in the client's
    order: the content is the text of all pages of that result's PDF,
    joined without separator and sliced at [doc_content_chars_max], and
    the metadata is the full-text metadata of that result. *)
Theorem load_returns_one_document_per_pdf
    (self : ArxivAPIWrapper) (query : string) (w : World)
    (rs : list Result) (fuel : nat) :
  fitz_installed w = true ->
  client self
    (Str.slice_to (Str.remove_char "-" (Str.remove_char ":" query))
       (Some (ARXIV_MAX_QUERY_LENGTH self)))
    (top_k_results self) = Return (iter_of_list rs) ->
  Forall readable_pdf rs ->
  (length rs < fuel)%nat ->
  exists (docs : list Document) (w' : World),
    load self fuel query w = Some (Return docs, w')
    /\ length docs = length rs
    /\ forall (i : nat) (r : Result), rs !! i = Some r ->
         exists (p : string) (pages : list string),
           download_pdf r = Return (p, Pdf pages)
           /\ docs !! i
              = Some {| page_content :=
                          Str.slice_to (String.concat "" pages)
                            (doc_content_chars_max self);
                        metadata := load_metadata self r |}.
Proof.
  intros Hfitz Hc Hgood Hfuel. rewrite <- iter_prepend_nil in Hc.
  destruct (load_prefix_run self query w rs IterStop 0 Hfitz Hc Hgood)
    as (w1 & Hrun & _).
  exists (map (full_text_doc self) rs), w1. split; [|split].
  - eapply load_more_fuel; [|instantiate (1 := S (length rs + 0)); lia].
    rewrite Hrun. unfold drain_turn, with_docs. simpl. now rewrite app_nil_r.
  - apply length_map.
  - intros i r Hi.
    assert (Hr : readable_pdf r).
    { rewrite Forall_forall in Hgood. apply Hgood.
      eapply list_elem_of_lookup_2. exact Hi. }
    destruct Hr as (p & pages & Hd). exists p, pages. split; [exact Hd|].
    rewrite list_lookup_fmap, Hi. simpl. unfold full_text_doc, pdf_text.
    now rewrite Hd.
Qed.

Lemma load_returns_one_document_per_pdf_witness :
  exists (docs : list Document) (w' : World),
    load (Sample.wrapper (Sample.finds [Sample.kan; Sample.kan2]) (Some 12) false)
         3 "KAN" (Sample.world true) = Some (Return docs, w')
    /\ length docs = 2%nat
    /\ docs !! 0%nat
       = Some {| page_content := "page one; pa";
                 metadata := load_metadata
                   (Sample.wrapper (Sample.finds [Sample.kan; Sample.kan2]) (Some 12) false)
                   Sample.kan |}.
Proof.
  destruct (load_returns_one_document_per_pdf
              (Sample.wrapper (Sample.finds [Sample.kan; Sample.kan2]) (Some 12) false)
              "KAN" (Sample.world true) [Sample.kan; Sample.kan2] 3)
    as (docs & w' & Hrun & Hlen & Hith).
  - reflexivity.
  - reflexivity.
  - repeat constructor; eexists _, _; reflexivity.
  - simpl. lia.
  - exists docs, w'. split; [exact Hrun|]. split; [exact Hlen|].
    destruct (Hith 0%nat Sample.kan eq_refl) as (p & pages & Hd & Hdoc).
    injection Hd as <- <-. exact Hdoc.
Defined.

(** X2. The effects of that run, in order: one search, then for each
    result its download, the opening of the file and its removal, the
    next download coming only after the removal.  When [load] returns,
    every path it downloaded to is free, also one that held a file before
    the call, and every other file is as it was. *)
Theorem load_effects_in_order
    (self : ArxivAPIWrapper) (query : string) (w : World)
    (rs : list Result) (fuel : nat) :
  fitz_installed w = true ->
  client self
    (Str.slice_to (Str.remove_char "-" (Str.remove_char ":" query))
       (Some (ARXIV_MAX_QUERY_LENGTH self)))
    (top_k_results self) = Return (iter_of_list rs) ->
  Forall readable_pdf rs ->
  (length rs < fuel)%nat ->
  exists (docs : list Document) (w' : World),
    load self fuel query w = Some (Return docs, w')
    /\ trace w'
       = (trace w
          ++ EvSearch
               (Str.slice_to (Str.remove_char "-" (Str.remove_char ":" query))
                  (Some (ARXIV_MAX_QUERY_LENGTH self)))
               (top_k_results self)
          :: flat_map
               (fun r => [ EvDownload (downloaded_path r);
                           EvOpen (downloaded_path r);
                           EvRemove (downloaded_path r) ]) rs)%list
    /\ (forall x : string, x ∈ map downloaded_path rs -> files w' !! x = None)
    /\ (forall x : string, x ∉ map downloaded_path rs -> files w' !! x = files w !! x).
Proof.
  intros Hfitz Hc Hgood Hfuel. rewrite <- iter_prepend_nil in Hc.
  destruct (load_prefix_run self query w rs IterStop 0 Hfitz Hc Hgood)
    as (w1 & Hrun & Htrace & Hfiles).
  exists (map (full_text_doc self) rs), w1. split; [|split; [|split]].
  - eapply load_more_fuel; [|instantiate (1 := S (length rs + 0)); lia].
    rewrite Hrun. unfold drain_turn, with_docs. simpl. now rewrite app_nil_r.
  - exact Htrace.
  - intros x Hx. rewrite Hfiles. now rewrite decide_True.
  - intros x Hx. rewrite Hfiles. now rewrite decide_False.
Qed.

Lemma load_effects_in_order_witness :
  exists (docs : list Document) (w' : World),
    load (Sample.wrapper (Sample.finds [Sample.kan; Sample.kan2]) (Some 12) false)
         3 "KAN" (Sample.world true) = Some (Return docs, w')
    /\ trace w'
       = [ EvSearch "KAN" 3;
           EvDownload "./2404.19756.KAN.pdf"; EvOpen "./2404.19756.KAN.pdf";
           EvRemove "./2404.19756.KAN.pdf";
           EvDownload "./2408.10205.KAN_2.0.pdf"; EvOpen "./2408.10205.KAN_2.0.pdf";
           EvRemove "./2408.10205.KAN_2.0.pdf" ].
Proof.
  destruct (load_effects_in_order
              (Sample.wrapper (Sample.finds [Sample.kan; Sample.kan2]) (Some 12) false)
              "KAN" (Sample.world true) [Sample.kan; Sample.kan2] 3)
    as (docs & w' & Hrun & Htrace & _).
  - reflexivity.
  - reflexivity.
  - repeat constructor; eexists _, _; reflexivity.
  - simpl. lia.
  - exists docs, w'. split; [exact Hrun | exact Htrace].
Defined.

(** ** Failures in the middle of full-text retrieval *)

(** X3. A download that raises aborts [load] with that exception, whatever
    [continue_on_failure] says: the Documents of the results before it are
    lost with the call, the results after it are not tried, and the files
    of the earlier results have been removed. *)
Theorem load_aborts_on_failed_download
    (self : ArxivAPIWrapper) (query : string) (w : World)
    (good : list Result) (bad : Result) (rest : results_iter)
    (ex : exn) (fuel : nat) :
  fitz_installed w = true ->
  client self
    (Str.slice_to (Str.remove_char "-" (Str.remove_char ":" query))
       (Some (ARXIV_MAX_QUERY_LENGTH self)))
    (top_k_results self) = Return (iter_prepend good (IterItem bad rest)) ->
  Forall readable_pdf good ->
  download_pdf bad = Raise ex ->
  (length good < fuel)%nat ->
  exists w' : World,
    load self fuel query w = Some (Raise ex, w')
    /\ trace w'
       = (trace w
          ++ EvSearch
               (Str.slice_to (Str.remove_char "-" (Str.remove_char ":" query))
                  (Some (ARXIV_MAX_QUERY_LENGTH self)))
               (top_k_results self)
          :: flat_map turn_events good)%list
    /\ forall x : string, x ∈ map downloaded_path good -> files w' !! x = None.
Proof.
  intros Hfitz Hc Hgood Hbad Hfuel.
  destruct (load_prefix_run self query w good (IterItem bad rest) 0 Hfitz Hc Hgood)
    as (w1 & Hrun & Htrace & Hfiles).
  exists w1. split; [|split].
  - eapply load_more_fuel; [|instantiate (1 := S (length good + 0)); lia].
    rewrite Hrun. unfold drain_turn. simpl.
    unfold bind, Result_download_pdf. now rewrite Hbad.
  - exact Htrace.
  - intros x Hx. rewrite Hfiles. now rewrite decide_True.
Qed.

Lemma load_aborts_on_failed_download_witness :
  exists w' : World,
    load (Sample.wrapper
            (Sample.finds_then [Sample.kan] (IterItem Sample.unreachable
                                               (IterItem Sample.kan2 IterStop)))
            (Some 40000) true)
         5 "KAN" (Sample.world true)
    = Some (Raise (OtherError "connection reset"), w')
    /\ trace w'
       = [ EvSearch "KAN" 3;
           EvDownload "./2404.19756.KAN.pdf"; EvOpen "./2404.19756.KAN.pdf";
           EvRemove "./2404.19756.KAN.pdf" ].
Proof.
  destruct (load_aborts_on_failed_download
              (Sample.wrapper
                 (Sample.finds_then [Sample.kan] (IterItem Sample.unreachable
                                                    (IterItem Sample.kan2 IterStop)))
                 (Some 40000) true)
              "KAN" (Sample.world true) [Sample.kan] Sample.unreachable
              (IterItem Sample.kan2 IterStop) (OtherError "connection reset") 5)
    as (w' & Hrun & Htrace & _).
  - reflexivity.
  - reflexivity.
  - repeat constructor; eexists _, _; reflexivity.
  - reflexivity.
  - simpl. lia.
  - exists w'. split; [exact Hrun | exact Htrace].
Defined.

(** X4. A downloaded file that the PDF reader rejects aborts [load] with
    the reader's exception, and that file stays on disk: the removal
    stands after the [yield], which is never reached for it. *)
Theorem load_leaves_unreadable_file_on_disk
    (self : ArxivAPIWrapper) (query : string) (w : World)
    (good : list Result) (bad : Result) (rest : results_iter)
    (p : string) (fuel : nat) :
  fitz_installed w = true ->
  client self
    (Str.slice_to (Str.remove_char "-" (Str.remove_char ":" query))
       (Some (ARXIV_MAX_QUERY_LENGTH self)))
    (top_k_results self) = Return (iter_prepend good (IterItem bad rest)) ->
  Forall readable_pdf good ->
  download_pdf bad = Return (p, NotPdf) ->
  (length good < fuel)%nat ->
  exists w' : World,
    load self fuel query w = Some (Raise (FileDataError p), w')
    /\ files w' !! p = Some NotPdf
    /\ trace w'
       = (trace w
          ++ EvSearch
               (Str.slice_to (Str.remove_char "-" (Str.remove_char ":" query))
                  (Some (ARXIV_MAX_QUERY_LENGTH self)))
               (top_k_results self)
          :: flat_map turn_events good ++ [EvDownload p; EvOpen p])%list.
Proof.
  intros Hfitz Hc Hgood Hbad Hfuel.
  destruct (load_prefix_run self query w good (IterItem bad rest) 0 Hfitz Hc Hgood)
    as (w1 & Hrun & Htrace & Hfiles).
  exists (log (EvOpen p) (log (EvDownload p)
            (set_files (<[p := NotPdf]> (files w1)) w1))).
  split; [|split].
  - eapply load_more_fuel; [|instantiate (1 := S (length good + 0)); lia].
    rewrite Hrun. unfold drain_turn. simpl.
    unfold bind, Result_download_pdf, fitz_read_text. rewrite Hbad. simpl.
    rewrite lookup_insert_eq. reflexivity.
  - simpl. apply lookup_insert_eq.
  - cbn [trace log set_files]. rewrite Htrace, <- !app_assoc. reflexivity.
Qed.

Lemma load_leaves_unreadable_file_on_disk_witness :
  exists w' : World,
    load (Sample.wrapper
            (Sample.finds_then [Sample.kan] (IterItem Sample.broken IterStop))
            (Some 40000) true)
         5 "KAN" (Sample.world true)
    = Some (Raise (FileDataError "./0000.00002.B.pdf"), w')
    /\ files w' !! "./0000.00002.B.pdf" = Some NotPdf.
Proof.
  destruct (load_leaves_unreadable_file_on_disk
              (Sample.wrapper
                 (Sample.finds_then [Sample.kan] (IterItem Sample.broken IterStop))
                 (Some 40000) true)
              "KAN" (Sample.world true) [Sample.kan] Sample.broken IterStop
              "./0000.00002.B.pdf" 5)
    as (w' & Hrun & Hfile & _).
  - reflexivity.
  - reflexivity.
  - repeat constructor; eexists _, _; reflexivity.
  - reflexivity.
  - simpl. lia.
  - exists w'. split; [exact Hrun | exact Hfile].
Defined.

(** X5. An exception raised by the lazy result sequence after some
    results aborts [load] too; by then every file downloaded for the
    earlier results has been removed. *)
Theorem load_aborts_on_iteration_error
    (self : ArxivAPIWrapper) (query : string) (w : World)
    (good : list Result) (ex : exn) (fuel : nat) :
  fitz_installed w = true ->
  client self
    (Str.slice_to (Str.remove_char "-" (Str.remove_char ":" query))
       (Some (ARXIV_MAX_QUERY_LENGTH self)))
    (top_k_results self) = Return (iter_prepend good (IterRaise ex)) ->
  Forall readable_pdf good ->
  (length good < fuel)%nat ->
  exists w' : World,
    load self fuel query w = Some (Raise ex, w')
    /\ forall x : string, x ∈ map downloaded_path good -> files w' !! x = None.
Proof.
  intros Hfitz Hc Hgood Hfuel.
  destruct (load_prefix_run self query w good (IterRaise ex) 0 Hfitz Hc Hgood)
    as (w1 & Hrun & _ & Hfiles).
  exists w1. split.
  - eapply load_more_fuel; [|instantiate (1 := S (length good + 0)); lia].
    rewrite Hrun. reflexivity.
  - intros x Hx. rewrite Hfiles. now rewrite decide_True.
Qed.

Lemma load_aborts_on_iteration_error_witness :
  exists w' : World,
    load (Sample.wrapper
            (Sample.finds_then [Sample.kan]
               (IterRaise (UnexpectedEmptyPageError "Page of results was unexpectedly empty")))
            (Some 40000) true)
         2 "KAN" (Sample.world true)
    = Some (Raise (UnexpectedEmptyPageError "Page of results was unexpectedly empty"), w')
    /\ files w' !! "./2404.19756.KAN.pdf" = None.
Proof.
  destruct (load_aborts_on_iteration_error
              (Sample.wrapper
                 (Sample.finds_then [Sample.kan]
                    (IterRaise (UnexpectedEmptyPageError "Page of results was unexpectedly empty")))
                 (Some 40000) true)
              "KAN" (Sample.world true) [Sample.kan]
              (UnexpectedEmptyPageError "Page of results was unexpectedly empty") 2)
    as (w' & Hrun & Hfiles).
  - reflexivity.
  - reflexivity.
  - repeat constructor; eexists _, _; reflexivity.
  - simpl. lia.
  - exists w'. split; [exact Hrun|]. apply Hfiles. left.
Defined.

(** ** What the two summary operations catch, and what they do not *)

Lemma comprehension_iter_prepend_raise {A} (f : Result -> A)
    (rs : list Result) (ex : exn) :
  comprehension f (iter_prepend rs (IterRaise ex)) = Raise ex.
Proof.
  induction rs as [|r rs IH]; cbn [iter_prepend fold_right comprehension];
    [reflexivity|].
  fold (iter_prepend rs (IterRaise ex)). now rewrite IH.
Qed.

(** X6. [run] and [get_summaries_as_docs] catch the three classes of
    [arxiv_exceptions] only: an exception of another class raised by the
    search call is raised to the caller, not turned into a sentinel. *)
Theorem summary_operations_propagate_other_errors
    (self : ArxivAPIWrapper) (query : string) (w : World) (ex : exn) :
  client self (Str.slice_to query (Some (ARXIV_MAX_QUERY_LENGTH self)))
    (top_k_results self) = Raise ex ->
  arxiv_exceptions ex = false ->
  fst (run self query w) = Raise ex
  /\ fst (get_summaries_as_docs self query w) = Raise ex.
Proof.
  intros Hc Hex. unfold run, get_summaries_as_docs, try_or_return.
  rewrite fetch_results_spec, Hc, Hex. split; reflexivity.
Qed.

Lemma summary_operations_propagate_other_errors_witness :
  fst (run (Sample.wrapper (Sample.fails (OtherError "connection reset")) None true)
         "KAN" (Sample.world true)) = Raise (OtherError "connection reset")
  /\ fst (get_summaries_as_docs
            (Sample.wrapper (Sample.fails (OtherError "connection reset")) None true)
            "KAN" (Sample.world true)) = Raise (OtherError "connection reset").
Proof.
  exact (summary_operations_propagate_other_errors
           (Sample.wrapper (Sample.fails (OtherError "connection reset")) None true)
           "KAN" (Sample.world true) (OtherError "connection reset")
           eq_refl eq_refl).
Defined.

(** X7. The [try] of [run] and of [get_summaries_as_docs] covers the
    search call only.  When the call returns a sequence that raises while
    the comprehension walks it, the exception is raised to the caller,
    also when it is one of [arxiv_exceptions], and the results handed out
    before it are lost. *)
Theorem summary_operations_do_not_catch_iteration_errors
    (self : ArxivAPIWrapper) (query : string) (w : World)
    (rs : list Result) (ex : exn) :
  client self (Str.slice_to query (Some (ARXIV_MAX_QUERY_LENGTH self)))
    (top_k_results self) = Return (iter_prepend rs (IterRaise ex)) ->
  fst (run self query w) = Raise ex
  /\ fst (get_summaries_as_docs self query w) = Raise ex.
Proof.
  intros Hc. unfold run, get_summaries_as_docs, try_or_return.
  rewrite fetch_results_spec, Hc. unfold bind, lift.
  rewrite !comprehension_iter_prepend_raise. split; reflexivity.
Qed.

Lemma summary_operations_do_not_catch_iteration_errors_witness :
  arxiv_exceptions (HTTPError "Page request resulted in HTTP 503") = true
  /\ fst (run (Sample.wrapper
                 (Sample.finds_then [Sample.kan]
                    (IterRaise (HTTPError "Page request resulted in HTTP 503")))
                 None true)
            "KAN" (Sample.world true))
     = Raise (HTTPError "Page request resulted in HTTP 503").
Proof.
  split; [reflexivity|].
  exact (proj1 (summary_operations_do_not_catch_iteration_errors
                  (Sample.wrapper
                     (Sample.finds_then [Sample.kan]
                        (IterRaise (HTTPError "Page request resulted in HTTP 503")))
                     None true)
                  "KAN" (Sample.world true) [Sample.kan]
                  (HTTPError "Page request resulted in HTTP 503") eq_refl)).
Defined.

(** X8. Whatever the outcome, [run] and [get_summaries_as_docs] submit
    exactly one search, the same one for the same query, and do nothing
    else to the world: no file is written or removed and nothing is
    downloaded. *)
Theorem summary_operations_only_search
    (self : ArxivAPIWrapper) (query : string) (w : World) :
  snd (run self query w) = snd (get_summaries_as_docs self query w)
  /\ files (snd (run self query w)) = files w
  /\ fitz_installed (snd (run self query w)) = fitz_installed w
  /\ trace (snd (run self query w))
     = (trace w
        ++ [EvSearch (Str.slice_to query (Some (ARXIV_MAX_QUERY_LENGTH self)))
              (top_k_results self)])%list.
Proof.
  assert (Hrun : snd (run self query w)
                 = log (EvSearch (Str.slice_to query (Some (ARXIV_MAX_QUERY_LENGTH self)))
                          (top_k_results self)) w).
  { unfold run, try_or_return. rewrite fetch_results_spec.
    destruct (client self _ _) as [results | ex].
    - unfold bind, lift.
      destruct (comprehension summary_block results) as [[|b bs] | ex'];
        reflexivity.
    - destruct (arxiv_exceptions ex); reflexivity. }
  assert (Hdocs : snd (get_summaries_as_docs self query w)
                  = log (EvSearch (Str.slice_to query (Some (ARXIV_MAX_QUERY_LENGTH self)))
                           (top_k_results self)) w).
  { unfold get_summaries_as_docs, try_or_return. rewrite fetch_results_spec.
    destruct (client self _ _) as [results | ex].
    - reflexivity.
    - destruct (arxiv_exceptions ex); reflexivity. }
  rewrite Hrun, Hdocs. repeat split.
Qed.

(** ** The query of full-text retrieval *)

Lemma prefix_nil (s : string) : String.prefix EmptyString s = true.
Proof. destruct s; reflexivity. Qed.

Lemma contains_char_cons (c a : ascii) (s : string) :
  Str.contains (String c EmptyString) (String a s)
  = Ascii.eqb c a || Str.contains (String c EmptyString) s.
Proof. now rewrite contains_cons, prefix_cons, prefix_nil, andb_true_r. Qed.

Lemma remove_char_free (c : ascii) (s : string) :
  Str.contains (String c EmptyString) (Str.remove_char c s) = false.
Proof.
  induction s as [|a s IH]; [reflexivity|]. cbn [Str.remove_char].
  destruct (Ascii.eqb a c) eqn:Hac; [exact IH|].
  now rewrite contains_char_cons, Ascii.eqb_sym, Hac, IH.
Qed.

Lemma remove_char_keeps_free (c d : ascii) (s : string) :
  Str.contains (String c EmptyString) s = false ->
  Str.contains (String c EmptyString) (Str.remove_char d s) = false.
Proof.
  induction s as [|a s IH]; [reflexivity|].
  rewrite contains_char_cons. intros [Hca Hs]%orb_false_iff.
  cbn [Str.remove_char]. destruct (Ascii.eqb a d); [now apply IH|].
  rewrite contains_char_cons, Hca. now apply IH.
Qed.

Lemma remove_char_id (c : ascii) (s : string) :
  Str.contains (String c EmptyString) s = false -> Str.remove_char c s = s.
Proof.
  induction s as [|a s IH]; [reflexivity|].
  rewrite contains_char_cons. intros [Hca Hs]%orb_false_iff.
  cbn [Str.remove_char]. rewrite Ascii.eqb_sym, Hca. f_equal. now apply IH.
Qed.

Lemma take_keeps_free (c : ascii) (n : nat) (s : string) :
  Str.contains (String c EmptyString) s = false ->
  Str.contains (String c EmptyString) (Str.take n s) = false.
Proof.
  revert s. induction n as [|n IH]; intros [|a s]; try reflexivity.
  rewrite contains_char_cons. intros [Hca Hs]%orb_false_iff.
  cbn [Str.take]. rewrite contains_char_cons, Hca. now apply IH.
Qed.

Lemma slice_to_keeps_free (c : ascii) (s : string) (stop : option Z) :
  Str.contains (String c EmptyString) s = false ->
  Str.contains (String c EmptyString) (Str.slice_to s stop) = false.
Proof.
  intros Hs. unfold Str.slice_to. destruct stop as [n|]; [|exact Hs].
  destruct (0 <=? n); now apply take_keeps_free.
Qed.

(** X9. The first [next] of the generator of [lazy_load], once the import
    has succeeded, submits one search before anything else, and the query
    of that search contains neither a colon nor a hyphen, whatever the
    input and the configured length.  For an input without these two
    characters it is the query that [run] submits. *)
Theorem lazy_load_strips_colon_and_hyphen
    (self : ArxivAPIWrapper) (query : string) (w : World) :
  fitz_installed w = true ->
  exists (submitted : string) (evs : list event),
    trace (snd (next self (GenCreated query) w))
      = (trace w ++ EvSearch submitted (top_k_results self) :: evs)%list
    /\ Str.contains ":" submitted = false
    /\ Str.contains "-" submitted = false
    /\ (Str.contains ":" query = false -> Str.contains "-" query = false ->
        submitted = Str.slice_to query (Some (ARXIV_MAX_QUERY_LENGTH self))).
Proof.
  intros Hfitz.
  set (submitted := Str.slice_to (Str.remove_char "-" (Str.remove_char ":" query))
                      (Some (ARXIV_MAX_QUERY_LENGTH self))).
  assert (Htrace : exists evs,
    trace (snd (next self (GenCreated query) w))
    = (trace w ++ EvSearch submitted (top_k_results self) :: evs)%list).
  { cbn [next]. unfold bind at 1 2. unfold try_except, import_fitz.
    rewrite Hfitz, fetch_results_spec. fold submitted.
    destruct (client self submitted (top_k_results self)) as [results | ex].
    - destruct (loop_turn_effects self results
                  (log (EvSearch submitted (top_k_results self)) w))
        as (evs & Hevs & _).
      exists evs. rewrite Hevs. simpl. now rewrite <- app_assoc.
    - exists []. reflexivity. }
  destruct Htrace as [evs Htrace]. exists submitted, evs.
  split; [exact Htrace|]. split; [|split].
  - apply slice_to_keeps_free, remove_char_keeps_free, remove_char_free.
  - apply slice_to_keeps_free, remove_char_free.
  - intros Hcolon Hhyphen. unfold submitted.
    rewrite (remove_char_id ":" query Hcolon).
    now rewrite (remove_char_id "-" query Hhyphen).
Qed.

Lemma lazy_load_strips_colon_and_hyphen_witness :
  exists (submitted : string) (evs : list event),
    trace (snd (next (Sample.wrapper (Sample.finds []) (Some 40000) true)
                  (GenCreated "ti:tree-of-thought") (Sample.world true)))
      = (EvSearch submitted 3 :: evs)%list
    /\ Str.contains ":" submitted = false
    /\ Str.contains "-" submitted = false.
Proof.
  destruct (lazy_load_strips_colon_and_hyphen
              (Sample.wrapper (Sample.finds []) (Some 40000) true)
              "ti:tree-of-thought" (Sample.world true) eq_refl)
    as (submitted & evs & Htrace & Hcolon & Hhyphen & _).
  exists submitted, evs. split; [exact Htrace|]. split; assumption.
Defined.

(** ** The attributes that no method reads *)

(** X10. [continue_on_failure] and [load_max_docs] are never read: giving
    them other values changes the result and the effects of none of the
    four operations.  In particular [load] does not stop at
    [load_max_docs] Documents and does not go on after a failure. *)
Theorem unused_attributes_change_nothing
    (self : ArxivAPIWrapper) (cof : bool) (lmd : Z) :
  (forall (query : string) (w : World),
     run (with_unused self cof lmd) query w = run self query w)
  /\ (forall (query : string) (w : World),
        get_summaries_as_docs (with_unused self cof lmd) query w
        = get_summaries_as_docs self query w)
  /\ (forall (g : generator) (w : World),
        next (with_unused self cof lmd) g w = next self g w)
  /\ (forall (fuel : nat) (query : string) (w : World),
        load (with_unused self cof lmd) fuel query w = load self fuel query w).
Proof.
  split; [|split; [|split]]; reflexivity.
Qed.

(** With [load_max_docs] at 1 and two results, [load] returns two
    Documents. *)
Lemma unused_attributes_change_nothing_witness :
  exists (d1 d2 : Document) (w' : World),
    load (with_unused
            (Sample.wrapper (Sample.finds [Sample.kan; Sample.kan2]) (Some 4) false)
            true 1)
         3 "KAN" (Sample.world true) = Some (Return [d1; d2], w').
Proof.
  rewrite (proj2 (proj2 (proj2 (unused_attributes_change_nothing _ _ _)))).
  eexists _, _, _. vm_compute. reflexivity.
Defined.

(** ** The metadata values of the two projections *)

Lemma extra_metadata_no_base_key (self : ArxivAPIWrapper) (r : Result) (k : string) :
  k ∈ base_keys -> extra_metadata self r !! k = None.
Proof.
  intros Hk. apply not_elem_of_dom. rewrite extra_metadata_dom.
  unfold base_keys in Hk. rewrite !elem_of_union, !elem_of_singleton in Hk.
  destruct (load_all_available_meta self).
  - unfold extended_keys. rewrite !elem_of_union, !elem_of_singleton.
    intros H. repeat (destruct Hk as [Hk|Hk]); subst k;
      repeat (destruct H as [H|H]); discriminate.
  - apply not_elem_of_empty.
Qed.

Lemma load_metadata_base_lookup (self : ArxivAPIWrapper) (r : Result) :
  load_metadata self r !! "Published" = Some (VStr (str_date (date_of (updated r))))
  /\ load_metadata self r !! "Title" = Some (VStr (title r))
  /\ load_metadata self r !! "Authors"
       = Some (VStr (Str.join ", " (map name (authors r))))
  /\ load_metadata self r !! "Summary" = Some (VStr (summary r)).
Proof.
  unfold load_metadata, dict_unpack.
  repeat split;
    (rewrite lookup_union_r
       by (apply extra_metadata_no_base_key; unfold base_keys;
           rewrite !elem_of_union, !elem_of_singleton; auto));
    unfold dict; simpl; now simplify_map_eq.
Qed.

(** X11. The same result is projected differently by the two modes.  Title
    and Authors are the same values under the same keys.  The abstract is
    the content of the summary Document and the Summary metadata of the
    full-text Document.  Published is a date in summary mode and the text
    of that date in full-text mode.  The entry id is under the key Entry
    ID in summary mode, and in full-text mode under the key entry_id when
    [load_all_available_meta] is set and nowhere otherwise. *)
Theorem projections_of_one_result (self : ArxivAPIWrapper) (r : Result) :
  metadata (summary_doc r) !! "Title" = load_metadata self r !! "Title"
  /\ metadata (summary_doc r) !! "Authors" = load_metadata self r !! "Authors"
  /\ load_metadata self r !! "Summary" = Some (VStr (page_content (summary_doc r)))
  /\ (exists d : date,
        metadata (summary_doc r) !! "Published" = Some (VDate d)
        /\ load_metadata self r !! "Published" = Some (VStr (str_date d)))
  /\ metadata (summary_doc r) !! "Entry ID" = Some (VStr (entry_id r))
  /\ load_metadata self r !! "Entry ID" = None
  /\ load_metadata self r !! "entry_id"
     = (if load_all_available_meta self then Some (VStr (entry_id r)) else None).
Proof.
  destruct (summary_doc_metadata_lookup r) as (Hid & Hpub & Htitle & Hauth).
  destruct (load_metadata_base_lookup self r) as (Lpub & Ltitle & Lauth & Lsum).
  split; [congruence|]. split; [congruence|]. split; [exact Lsum|].
  split; [eauto|]. split; [exact Hid|]. split.
  - apply not_elem_of_dom. rewrite load_metadata_dom. unfold base_keys, extended_keys.
    destruct (load_all_available_meta self);
      rewrite !elem_of_union, !elem_of_singleton, ?elem_of_empty; intros H;
      repeat (destruct H as [H|H]); try discriminate; contradiction.
  - unfold load_metadata, dict_unpack, extra_metadata.
    destruct (load_all_available_meta self).
    + apply lookup_union_Some_l. unfold dict; simpl. now simplify_map_eq.
    + unfold dict; simpl. rewrite (left_id_L ∅ (∪)). now simplify_map_eq.
Qed.

(** X12. With [load_all_available_meta] set, the eight extended keys of a
    full-text Document hold the entry id, the text of the date of
    [published], the comment, journal reference and DOI (each [None] when
    the result has none), the primary category, the categories and the
    [href] of every link, in the order of the result. *)
Theorem full_metadata_values (self : ArxivAPIWrapper) (r : Result) :
  load_all_available_meta self = true ->
  load_metadata self r !! "entry_id" = Some (VStr (entry_id r))
  /\ load_metadata self r !! "published_first_time"
       = Some (VStr (str_date (date_of (published r))))
  /\ load_metadata self r !! "comment"
       = Some (match comment r with Some s => VStr s | None => VNone end)
  /\ load_metadata self r !! "journal_ref"
       = Some (match journal_ref r with Some s => VStr s | None => VNone end)
  /\ load_metadata self r !! "doi"
       = Some (match doi r with Some s => VStr s | None => VNone end)
  /\ load_metadata self r !! "primary_category" = Some (VStr (primary_category r))
  /\ load_metadata self r !! "categories" = Some (VList (categories r))
  /\ load_metadata self r !! "links" = Some (VList (map href (links r))).
Proof.
  intros Hall. unfold load_metadata, dict_unpack, extra_metadata. rewrite Hall.
  repeat split; apply lookup_union_Some_l; unfold dict; simpl;
    now simplify_map_eq.
Qed.

Lemma full_metadata_values_witness :
  load_metadata (Sample.wrapper (Sample.finds []) None true) Sample.broken
    !! "comment" = Some (VStr "withdrawn")
  /\ load_metadata (Sample.wrapper (Sample.finds []) None true) Sample.broken
       !! "doi" = Some VNone
  /\ load_metadata (Sample.wrapper (Sample.finds []) None true) Sample.kan
       !! "links" = Some (VList ["http://arxiv.org/pdf/2404.19756"]).
Proof.
  destruct (full_metadata_values
              (Sample.wrapper (Sample.finds []) None true) Sample.broken eq_refl)
    as (_ & _ & Hcomment & _ & Hdoi & _).
  split; [exact Hcomment|]. split; [exact Hdoi|].
  vm_compute. reflexivity.
Defined.

(** * Properties of the game-builder script *)

Section GameBuilderProperties.

Context {V : Type}.
Variable yaml_safe_load : string -> GameBuilder.error + GameBuilder.yaml_document V.
Variable crew_kickoff : gmap string V -> GameBuilder.crew_failure + string.
Variable crew_train : Z -> string -> gmap string V -> GameBuilder.crew_failure + unit.

(** X13. When the configuration has the entry [example1_pacman] and the
    crew returns, [run] hands the crew the one-entry dict that maps [game]
    to that entry, exactly once, and prints the banner, the four lines
    that announce the result and the result itself, in this order. *)
Theorem game_run_prints_the_result
    (w : GameBuilder.World V) (content : string) (m : gmap string V)
    (example : V) (game : string) :
  GameBuilder.text_files w !! "config/gamedesign.yaml" = Some content ->
  yaml_safe_load content = inr (GameBuilder.YamlMapping m) ->
  m !! "example1_pacman" = Some example ->
  crew_kickoff {[ "game" := example ]} = inr game ->
  exists w' : GameBuilder.World V,
    GameBuilder.run V yaml_safe_load crew_kickoff w = (inr tt, w')
    /\ GameBuilder.stdout w'
       = (GameBuilder.stdout w
          ++ [ "## Welcome to the Game Crew";
               "-------------------------------";
               Str.nl +:+ Str.nl +:+ "########################";
               "## Here is the result";
               "########################" +:+ Str.nl;
               "final code for the game:";
               game ])%list
    /\ GameBuilder.crew_calls w'
       = (GameBuilder.crew_calls w ++ [GameBuilder.Kickoff {[ "game" := example ]}])%list
    /\ GameBuilder.text_files w' = GameBuilder.text_files w.
Proof.
  intros Hfile Hyaml Hkey Hkick. eexists.
  unfold GameBuilder.run, GameBuilder.bind, GameBuilder.print,
    GameBuilder.load_yaml, GameBuilder.subscript, GameBuilder.ret. simpl.
  rewrite Hfile, Hyaml, Hkey, Hkick. simpl.
  split; [reflexivity|]. split; [|split; reflexivity].
  rewrite <- !app_assoc. reflexivity.
Qed.

(** X14. When the configuration cannot deliver the entry, [run] raises
    after the banner has been printed and before the crew is called: a
    missing file gives [FileNotFoundError], a parser error is raised as it
    is, a document that is not a mapping gives [TypeError], and a mapping
    without the key gives [KeyError] for [example1_pacman]. *)
Theorem game_run_fails_after_the_banner (w : GameBuilder.World V) :
  (GameBuilder.text_files w !! "config/gamedesign.yaml" = None ->
   GameBuilder.run V yaml_safe_load crew_kickoff w
   = (inl (GameBuilder.FileNotFoundError "config/gamedesign.yaml"), GameBuilder.after_banner w))
  /\ (forall (content : string) (e : GameBuilder.error),
        GameBuilder.text_files w !! "config/gamedesign.yaml" = Some content ->
        yaml_safe_load content = inl e ->
        GameBuilder.run V yaml_safe_load crew_kickoff w = (inl e, GameBuilder.after_banner w))
  /\ (forall content : string,
        GameBuilder.text_files w !! "config/gamedesign.yaml" = Some content ->
        yaml_safe_load content = inr GameBuilder.YamlOther ->
        GameBuilder.run V yaml_safe_load crew_kickoff w
        = (inl GameBuilder.TypeError, GameBuilder.after_banner w))
  /\ (forall (content : string) (m : gmap string V),
        GameBuilder.text_files w !! "config/gamedesign.yaml" = Some content ->
        yaml_safe_load content = inr (GameBuilder.YamlMapping m) ->
        m !! "example1_pacman" = None ->
        GameBuilder.run V yaml_safe_load crew_kickoff w
        = (inl (GameBuilder.KeyError "example1_pacman"), GameBuilder.after_banner w)).
Proof.
  unfold GameBuilder.run, GameBuilder.bind, GameBuilder.print,
    GameBuilder.load_yaml, GameBuilder.subscript, GameBuilder.ret,
    GameBuilder.raise, GameBuilder.after_banner.
  simpl. repeat split.
  - intros ->. rewrite <- !app_assoc. reflexivity.
  - intros content e -> ->. rewrite <- !app_assoc. reflexivity.
  - intros content -> ->. rewrite <- !app_assoc. reflexivity.
  - intros content m -> -> ->. rewrite <- !app_assoc. reflexivity.
Qed.

(** X15. [train] asks the crew for two iterations and the file
    [model.pkl], with the one-entry dict for [game].  An exception of the
    crew whose class derives from [Exception] is replaced by a plain
    [Exception] whose text is "An error occurred while training the
    crew: " followed by the text of the original; an exception of another
    class is raised as it is.  [train] prints nothing. *)
Theorem game_train_wraps_crew_exceptions
    (w : GameBuilder.World V) (content : string) (m : gmap string V) (example : V) :
  GameBuilder.text_files w !! "config/gamedesign.yaml" = Some content ->
  yaml_safe_load content = inr (GameBuilder.YamlMapping m) ->
  m !! "example1_pacman" = Some example ->
  GameBuilder.crew_calls (snd (GameBuilder.train V yaml_safe_load crew_train w))
  = (GameBuilder.crew_calls w
     ++ [GameBuilder.Train 2 "model.pkl" {[ "game" := example ]}])%list
  /\ GameBuilder.stdout (snd (GameBuilder.train V yaml_safe_load crew_train w))
     = GameBuilder.stdout w
  /\ (crew_train 2 "model.pkl" {[ "game" := example ]} = inr tt ->
      fst (GameBuilder.train V yaml_safe_load crew_train w) = inr tt)
  /\ (forall f : GameBuilder.crew_failure,
        crew_train 2 "model.pkl" {[ "game" := example ]} = inl f ->
        GameBuilder.is_exception f = true ->
        fst (GameBuilder.train V yaml_safe_load crew_train w)
        = inl (GameBuilder.PlainException
                 ("An error occurred while training the crew: "
                  +:+ GameBuilder.text f)))
  /\ (forall f : GameBuilder.crew_failure,
        crew_train 2 "model.pkl" {[ "game" := example ]} = inl f ->
        GameBuilder.is_exception f = false ->
        fst (GameBuilder.train V yaml_safe_load crew_train w)
        = inl (GameBuilder.CrewError f)).
Proof.
  intros Hfile Hyaml Hkey.
  unfold GameBuilder.train, GameBuilder.bind, GameBuilder.load_yaml,
    GameBuilder.subscript, GameBuilder.ret.
  rewrite Hfile, Hyaml, Hkey.
  destruct (crew_train 2 "model.pkl" {[ "game" := example ]}) as [f | []];
    [destruct (GameBuilder.is_exception f) eqn:Hf|]; simpl;
    repeat split; try discriminate; try congruence;
    intros f' [= <-]; congruence.
Qed.

(** X16. [train] wraps nothing but the call of the crew: when the
    configuration cannot deliver the entry, the error is raised as it is
    ([FileNotFoundError], the parser's error, [TypeError] or [KeyError]),
    the crew is not called and the world is unchanged. *)
Theorem game_train_does_not_wrap_configuration_errors (w : GameBuilder.World V) :
  (GameBuilder.text_files w !! "config/gamedesign.yaml" = None ->
   GameBuilder.train V yaml_safe_load crew_train w
   = (inl (GameBuilder.FileNotFoundError "config/gamedesign.yaml"), w))
  /\ (forall (content : string) (e : GameBuilder.error),
        GameBuilder.text_files w !! "config/gamedesign.yaml" = Some content ->
        yaml_safe_load content = inl e ->
        GameBuilder.train V yaml_safe_load crew_train w = (inl e, w))
  /\ (forall content : string,
        GameBuilder.text_files w !! "config/gamedesign.yaml" = Some content ->
        yaml_safe_load content = inr GameBuilder.YamlOther ->
        GameBuilder.train V yaml_safe_load crew_train w
        = (inl GameBuilder.TypeError, w))
  /\ (forall (content : string) (m : gmap string V),
        GameBuilder.text_files w !! "config/gamedesign.yaml" = Some content ->
        yaml_safe_load content = inr (GameBuilder.YamlMapping m) ->
        m !! "example1_pacman" = None ->
        GameBuilder.train V yaml_safe_load crew_train w
        = (inl (GameBuilder.KeyError "example1_pacman"), w)).
Proof.
  unfold GameBuilder.train, GameBuilder.bind, GameBuilder.load_yaml,
    GameBuilder.subscript, GameBuilder.ret, GameBuilder.raise.
  repeat split.
  - intros ->. reflexivity.
  - intros content e -> ->. reflexivity.
  - intros content -> ->. reflexivity.
  - intros content m -> -> ->. reflexivity.
Qed.

End GameBuilderProperties.

Lemma game_run_prints_the_result_witness :
  exists w' : GameBuilder.World string,
    GameBuilder.run string GameBuilder.sample_yaml GameBuilder.obliging_kickoff
      (GameBuilder.sample_world
         {[ "config/gamedesign.yaml" := "example1_pacman: pacman" ]})
    = (inr tt, w')
    /\ GameBuilder.stdout w'
       = [ "## Welcome to the Game Crew";
           "-------------------------------";
           Str.nl +:+ Str.nl +:+ "########################";
           "## Here is the result";
           "########################" +:+ Str.nl;
           "final code for the game:";
           "import pygame" ]
    /\ GameBuilder.crew_calls w' = [GameBuilder.Kickoff {[ "game" := "pacman" ]}].
Proof.
  destruct (game_run_prints_the_result
              GameBuilder.sample_yaml GameBuilder.obliging_kickoff
              (GameBuilder.sample_world
                 {[ "config/gamedesign.yaml" := "example1_pacman: pacman" ]})
              "example1_pacman: pacman" {[ "example1_pacman" := "pacman" ]}
              "pacman" "import pygame")
    as (w' & Hrun & Hout & Hcalls & _).
  - apply lookup_singleton_eq.
  - reflexivity.
  - apply lookup_singleton_eq.
  - reflexivity.
  - exists w'. split; [exact Hrun|]. split; [exact Hout | exact Hcalls].
Defined.

Lemma game_run_fails_after_the_banner_witness :
  GameBuilder.run string GameBuilder.sample_yaml GameBuilder.obliging_kickoff
    (GameBuilder.sample_world {[ "config/gamedesign.yaml" := "other: tetris" ]})
  = (inl (GameBuilder.KeyError "example1_pacman"),
     GameBuilder.after_banner
       (GameBuilder.sample_world {[ "config/gamedesign.yaml" := "other: tetris" ]}))
  /\ GameBuilder.run string GameBuilder.sample_yaml GameBuilder.obliging_kickoff
       (GameBuilder.sample_world ∅)
     = (inl (GameBuilder.FileNotFoundError "config/gamedesign.yaml"),
        GameBuilder.after_banner (GameBuilder.sample_world ∅)).
Proof.
  split.
  - destruct (game_run_fails_after_the_banner
                GameBuilder.sample_yaml GameBuilder.obliging_kickoff
                (GameBuilder.sample_world
                   {[ "config/gamedesign.yaml" := "other: tetris" ]}))
      as (_ & _ & _ & Hkey).
    apply (Hkey "other: tetris" {[ "other" := "tetris" ]}).
    + apply lookup_singleton_eq.
    + reflexivity.
    + apply lookup_singleton_ne. discriminate.
  - destruct (game_run_fails_after_the_banner
                GameBuilder.sample_yaml GameBuilder.obliging_kickoff
                (GameBuilder.sample_world ∅))
      as (Hmissing & _).
    apply Hmissing. apply lookup_empty.
Defined.

Lemma game_train_wraps_crew_exceptions_witness :
  fst (GameBuilder.train string GameBuilder.sample_yaml GameBuilder.failing_train
         (GameBuilder.sample_world
            {[ "config/gamedesign.yaml" := "example1_pacman: pacman" ]}))
  = inl (GameBuilder.PlainException
           "An error occurred while training the crew: rate limit")
  /\ GameBuilder.crew_calls
       (snd (GameBuilder.train string GameBuilder.sample_yaml GameBuilder.failing_train
               (GameBuilder.sample_world
                  {[ "config/gamedesign.yaml" := "example1_pacman: pacman" ]})))
     = [GameBuilder.Train 2 "model.pkl" {[ "game" := "pacman" ]}].
Proof.
  destruct (game_train_wraps_crew_exceptions
              GameBuilder.sample_yaml GameBuilder.failing_train
              (GameBuilder.sample_world
                 {[ "config/gamedesign.yaml" := "example1_pacman: pacman" ]})
              "example1_pacman: pacman" {[ "example1_pacman" := "pacman" ]} "pacman")
    as (Hcalls & _ & _ & Hwrap & _).
  - apply lookup_singleton_eq.
  - reflexivity.
  - apply lookup_singleton_eq.
  - split; [|exact Hcalls].
    apply (Hwrap {| GameBuilder.is_exception := true;
                    GameBuilder.text := "rate limit" |}); reflexivity.
Defined.

Lemma game_train_does_not_wrap_configuration_errors_witness :
  GameBuilder.train string GameBuilder.sample_yaml GameBuilder.obliging_train
    (GameBuilder.sample_world {[ "config/gamedesign.yaml" := "other: tetris" ]})
  = (inl (GameBuilder.KeyError "example1_pacman"),
     GameBuilder.sample_world {[ "config/gamedesign.yaml" := "other: tetris" ]}).
Proof.
  destruct (game_train_does_not_wrap_configuration_errors
              GameBuilder.sample_yaml GameBuilder.obliging_train
              (GameBuilder.sample_world
                 {[ "config/gamedesign.yaml" := "other: tetris" ]}))
    as (_ & _ & _ & Hkey).
  apply (Hkey "other: tetris" {[ "other" := "tetris" ]}).
  - apply lookup_singleton_eq.
  - reflexivity.
  - apply lookup_singleton_ne. discriminate.
Defined.

(** * Bounds that are not lengths, and a file that is gone *)

(** X17. A negative [ARXIV_MAX_QUERY_LENGTH] is not refused: the slice then
    counts from the end, so the submitted query is the input without its
    last [-N] characters, and the empty query when the input is no longer
    than that. *)
Theorem negative_query_length_cuts_from_the_end
    (self : ArxivAPIWrapper) (query : string) (w : World) :
  ARXIV_MAX_QUERY_LENGTH self < 0 ->
  exists submitted rest : string,
    trace (snd (_fetch_results self query w))
      = (trace w ++ [EvSearch submitted (top_k_results self)])%list
    /\ query = submitted +:+ rest
    /\ Z.of_nat (String.length submitted)
       = Z.max 0 (Z.of_nat (String.length query) + ARXIV_MAX_QUERY_LENGTH self).
Proof.
  intros Hneg.
  set (n := Z.to_nat (Z.of_nat (String.length query) + ARXIV_MAX_QUERY_LENGTH self)).
  assert (Hslice : Str.slice_to query (Some (ARXIV_MAX_QUERY_LENGTH self))
                   = Str.take n query).
  { unfold Str.slice_to. destruct (Z.leb_spec 0 (ARXIV_MAX_QUERY_LENGTH self)); [lia|].
    reflexivity. }
  destruct (take_is_prefix n query) as [rest Hrest].
  exists (Str.take n query), rest. rewrite fetch_results_spec, Hslice. simpl.
  split; [reflexivity|]. split; [exact Hrest|].
  rewrite take_length. unfold n. lia.
Qed.

Lemma negative_query_length_cuts_from_the_end_witness :
  exists submitted rest : string,
    trace (snd (_fetch_results (Sample.negative_length (Sample.finds []))
                  "tree of thought" (Sample.world true)))
      = [EvSearch submitted 3]
    /\ "tree of thought" = submitted +:+ rest
    /\ Z.of_nat (String.length submitted) = 11.
Proof.
  destruct (negative_query_length_cuts_from_the_end
              (Sample.negative_length (Sample.finds []))
              "tree of thought" (Sample.world true))
    as (submitted & rest & Htrace & Hsplit & Hlen).
  - simpl. lia.
  - exists submitted, rest. split; [exact Htrace|]. split; [exact Hsplit|].
    rewrite Hlen. reflexivity.
Defined.

(** X18. The removal after the [yield] expects the file to be there: when
    it has gone in the meantime, the resumed generator raises
    [FileNotFoundError] for it at once, before any download, and the
    results not yet taken are not processed. *)
Theorem resumption_fails_when_the_file_is_gone
    (self : ArxivAPIWrapper) (p : string) (rest : results_iter) (w : World) :
  files w !! p = None ->
  next self (GenSuspended p rest) w = (Raise (FileNotFoundError p), w)
  /\ forall fuel : nat, fuel <> O ->
       list_of_generator self fuel (GenSuspended p rest) w
       = Some (Raise (FileNotFoundError p), w).
Proof.
  intros Hgone.
  assert (Hnext : next self (GenSuspended p rest) w = (Raise (FileNotFoundError p), w)).
  { cbn [next]. unfold bind, os_remove. now rewrite Hgone. }
  split; [exact Hnext|]. intros [|fuel] Hfuel; [congruence|].
  cbn [list_of_generator]. now rewrite Hnext.
Qed.

Lemma resumption_fails_when_the_file_is_gone_witness :
  next (Sample.wrapper (Sample.finds [Sample.kan; Sample.kan2]) None true)
       (GenSuspended "./2404.19756.KAN.pdf" (IterItem Sample.kan2 IterStop))
       (Sample.world true)
  = (Raise (FileNotFoundError "./2404.19756.KAN.pdf"), Sample.world true).
Proof.
  exact (proj1 (resumption_fails_when_the_file_is_gone
                  (Sample.wrapper (Sample.finds [Sample.kan; Sample.kan2]) None true)
                  "./2404.19756.KAN.pdf" (IterItem Sample.kan2 IterStop)
                  (Sample.world true) (lookup_empty _))).
Defined.
